(** * The diet planner's extraction pipeline and session logic

    A shallow embedding of [ai_dietitian.py], [models.py] and the session
    handling of [app.py].  Python values are modelled as follows.

    - [str] is a list of Unicode code points ([text]); the methods used by the
      code ([strip], [startswith], [endswith], slices) are written out.
    - The value [json.loads] returns is a tree [json] of [None], [bool],
      [int], [float], [str], [list] and [dict] nodes; a [dict] is an
      association list in insertion order.
    - [float] is the kernel's binary64 type.
    - The models of [models.py] are records; their validation follows
      pydantic 1.x, the API the code is written against
      ([user_profile.json(indent=2)], [Optional] fields without a default).
    - A method that calls the service, prints, or touches
      [st.session_state] is a computation over a [World], which may return
      or raise. *)

From Stdlib Require Import String Ascii DecimalString.
From Stdlib Require Import List ZArith NArith Bool Lia.
From Stdlib Require Import Floats.
Import ListNotations.

Set Implicit Arguments.
Set Warnings "-register-all,-inexact-float".

(** ** Python strings *)

Definition codepoint := N.
Definition text := list codepoint.

(** An ASCII literal of the source as a [text]. *)
Definition lit (s : string) : text := map N_of_ascii (list_ascii_of_string s).

Fixpoint text_eqb (a b : text) : bool :=
  match a, b with
  | [], [] => true
  | x :: a', y :: b' => N.eqb x y && text_eqb a' b'
  | _, _ => false
  end.

(** [str.isspace] on one code point: the table of CPython's
    [_PyUnicode_IsWhitespace]. *)
Definition isspace (c : codepoint) : bool :=
  ((9 <=? c) && (c <=? 13) || (28 <=? c) && (c <=? 32)
   || (c =? 133) || (c =? 160) || (c =? 5760)
   || (8192 <=? c) && (c <=? 8202)
   || (c =? 8232) || (c =? 8233) || (c =? 8239) || (c =? 8287)
   || (c =? 12288))%N.

Fixpoint lstrip (s : text) : text :=
  match s with
  | c :: s' => if isspace c then lstrip s' else s
  | [] => []
  end.

Definition rstrip (s : text) : text := rev (lstrip (rev s)).

(** A text is trimmed at the left when it does not start with white space. *)
Definition left_trimmed (s : text) : Prop :=
  match s with
  | c :: _ => isspace c = false
  | [] => True
  end.

(** [s.strip()] *)
Definition strip (s : text) : text := rstrip (lstrip s).

(** [s.startswith(p)] *)
Fixpoint startswith (p s : text) : bool :=
  match p, s with
  | [], _ => true
  | a :: p', b :: s' => N.eqb a b && startswith p' s'
  | _ :: _, [] => false
  end.

(** [s.endswith(p)] *)
Definition endswith (p s : text) : bool := startswith (rev p) (rev s).

(** [s[n:]] for a literal [n >= 0] *)
Definition slice_from (n : nat) (s : text) : text := skipn n s.

(** [s[:-n]] for a literal [n > 0]: everything but the last [n] code points,
    and the empty string when [s] is shorter than [n]. *)
Definition slice_to_neg (n : nat) (s : text) : text := firstn (length s - n) s.

(** ** Cleaning the reply (ai_dietitian.py 166-171 and 236-241)

    Both [extract_user_profile] and [create_diet_plan] run the same four
    lines on the reply before [json.loads]. *)

Definition fence_json : text := lit "```json".
Definition fence : text := lit "```".

Definition sanitize (raw : text) : text :=
  let content := strip raw in
  let content := if startswith fence_json content then slice_from 7 content else content in
  let content := if endswith fence content then slice_to_neg 3 content else content in
  content.

(** ** Values decoded from JSON *)

(** A [dict] with [str] keys, as the list of its items in insertion order. *)
Definition dict (V : Type) := list (text * V).

Fixpoint dict_get {V} (k : text) (d : dict V) : option V :=
  match d with
  | [] => None
  | (k', v) :: d' => if text_eqb k k' then Some v else dict_get k d'
  end.

(** [d[k] = v]: an existing key keeps its place, a new one goes last. *)
Fixpoint dict_set {V} (k : text) (v : V) (d : dict V) : dict V :=
  match d with
  | [] => [(k, v)]
  | (k', v') :: d' => if text_eqb k k' then (k', v) :: d' else (k', v') :: dict_set k v d'
  end.

(** What [json.loads] returns. *)
Inductive json : Type :=
| JNull
| JBool (b : bool)
| JInt (n : Z)
| JFloat (x : float)
| JStr (s : text)
| JList (l : list json)
| JDict (d : list (text * json)).

(** ** Numbers *)

(** [float(n)] for an [int]: round to nearest even; [None] is the
    [OverflowError] of an [int] too large for a [float]. *)
Definition float_of_int (n : Z) : option float :=
  match binary_normalize prec emax n 0 false with
  | S754_infinity _ => None
  | sf => Some (SF2Prim sf)
  end.

(** [int(x)] for a [float]: truncation towards zero; [None] is the
    [ValueError] of a NaN or the [OverflowError] of an infinity. *)
Definition int_of_float (x : float) : option Z :=
  match Prim2SF x with
  | S754_zero _ => Some 0%Z
  | S754_finite s m e =>
      let a := if (0 <=? e)%Z then (Zpos m * 2 ^ e)%Z else (Zpos m / 2 ^ (- e))%Z in
      Some (if s then (- a)%Z else a)
  | S754_infinity _ | S754_nan => None
  end.

(** ** Errors and exceptions *)

Inductive ErrorKind :=
| MissingError | NoneIsNotAllowedError | StrError | IntegerError | FloatError
| EnumMemberError | ListError | DictError | KeywordsMustBeStrings.

Inductive LocItem :=
| LField (name : text) | LIndex (i : nat) | LKey | LItem (k : json).

Record ErrorWrapper := { loc : list LocItem; kind : ErrorKind }.

(** Exceptions below [Exception]. *)
Inductive PyException :=
| OpenAIError (msg : text)
| JSONDecodeError
| ValidationError (errors : list ErrorWrapper)
| TypeError_not_a_mapping
| OverflowError
| AttributeError
| ConfigValueError.

(** ** The Python runtime

    Library functions the code calls and whose text is not part of the
    repository.  [None] stands for the exception the function raises. *)

Record Message := { role : text; content : text }.

Class Builtins := {
  (** [json.loads(s)]; [None]: [JSONDecodeError] *)
  json_loads : text -> option json;
  (** [json.dumps(conversation_history, indent=2)] *)
  json_dumps : list Message -> text;
  (** [int(s)] and [float(s)] for a [str]; [None]: [ValueError] *)
  int_of_str : text -> option Z;
  float_of_str : text -> option float;
  (** [str(n)] and [str(x)] *)
  str_of_int : Z -> text;
  str_of_float : float -> text;
  (** [dict(v).items()] for a [v] that is not a [dict]; [None]: [TypeError]
      or [ValueError] *)
  dict_of : json -> option (list (json * json));
  (** [str(e)] for an exception raised by a library *)
  exception_message : PyException -> text
}.

(** ** Validation results (pydantic) *)

(** The result of running validators: a value, the errors collected, or an
    exception that is not one of the [ValueError], [TypeError] and
    [AssertionError] that pydantic turns into errors. *)
Inductive Validated (A : Type) :=
| Valid (a : A)
| Invalid (errs : list ErrorWrapper)
| Aborted (e : PyException).
Arguments Valid {A} a.
Arguments Invalid {A} errs.
Arguments Aborted {A} e.

Definition fail_with {A} (k : ErrorKind) : Validated A :=
  Invalid [{| loc := []; kind := k |}].

Definition vmap {A B} (f : A -> B) (r : Validated A) : Validated B :=
  match r with
  | Valid a => Valid (f a)
  | Invalid es => Invalid es
  | Aborted e => Aborted e
  end.

(** Fields are validated in order and the errors of all of them are
    collected; an exception ends the validation where it is raised. *)
Definition ap {A B} (rf : Validated (A -> B)) (ra : Validated A) : Validated B :=
  match rf, ra with
  | Aborted e, _ => Aborted e
  | _, Aborted e => Aborted e
  | Valid f, Valid a => Valid (f a)
  | Valid _, Invalid es => Invalid es
  | Invalid es, Valid _ => Invalid es
  | Invalid es, Invalid es' => Invalid (es ++ es')
  end.

Declare Scope validated_scope.
Delimit Scope validated_scope with validated.
Notation "rf <*> ra" := (ap rf ra) (at level 52, left associativity) : validated_scope.
Open Scope validated_scope.

(** Errors raised below a field, an index or a key get it as a prefix. *)
Definition at_loc {A} (i : LocItem) (r : Validated A) : Validated A :=
  match r with
  | Invalid es => Invalid (map (fun e => {| loc := i :: loc e; kind := kind e |}) es)
  | r => r
  end.

(** ** Field validators (pydantic 1.x) *)

Section Validators.
Context {py : Builtins}.

(** [str_validator]: a [str] as it is, a number through [str]. *)
Definition str_validator (v : json) : Validated text :=
  match v with
  | JStr s => Valid s
  | JInt n => Valid (str_of_int n)
  | JFloat x => Valid (str_of_float x)
  | JBool b => Valid (if b then lit "True" else lit "False")
  | _ => fail_with StrError
  end.

(** [int_validator]: an [int] as it is, anything else through [int]. *)
Definition int_validator (v : json) : Validated Z :=
  match v with
  | JInt n => Valid n
  | JBool b => Valid (if b then 1 else 0)%Z
  | JFloat x => match int_of_float x with Some n => Valid n | None => fail_with IntegerError end
  | JStr s => match int_of_str s with Some n => Valid n | None => fail_with IntegerError end
  | _ => fail_with IntegerError
  end.

(** [float_validator]: a [float] as it is, anything else through [float];
    the [OverflowError] of a large [int] is not caught. *)
Definition float_validator (v : json) : Validated float :=
  match v with
  | JFloat x => Valid x
  | JInt n => match float_of_int n with Some x => Valid x | None => Aborted OverflowError end
  | JBool b => Valid (if b then 1 else 0)%float
  | JStr s => match float_of_str s with Some x => Valid x | None => fail_with FloatError end
  | _ => fail_with FloatError
  end.

(** [enum_member_validator] of a [str]-valued [Enum]: the member whose value
    equals [v]. *)
Definition enum_member_validator {E} (members : list E) (value : E -> text) (v : json)
  : Validated E :=
  match v with
  | JStr s =>
      match find (fun m => text_eqb (value m) s) members with
      | Some m => Valid m
      | None => fail_with EnumMemberError
      end
  | _ => fail_with EnumMemberError
  end.

(** A field of type [Any]: no validator. *)
Definition any_validator (v : json) : Validated json := Valid v.

(** [ModelField.validate] for a type that does not allow [None]. *)
Definition not_none {A} (f : json -> Validated A) (v : json) : Validated A :=
  match v with
  | JNull => fail_with NoneIsNotAllowedError
  | _ => f v
  end.

(** [ModelField.validate] for [Optional[T]]. *)
Definition or_none {A} (f : json -> Validated A) (v : json) : Validated (option A) :=
  match v with
  | JNull => Valid None
  | _ => vmap Some (f v)
  end.

(** The items of a sequence, each at its index. *)
Fixpoint validate_items {A} (f : json -> Validated A) (i : nat) (l : list json)
  : Validated (list A) :=
  match l with
  | [] => Valid []
  | v :: l' => Valid cons <*> at_loc (LIndex i) (f v) <*> validate_items f (S i) l'
  end.

(** [List[T]]: the value must be a sequence; every item is validated as a
    [T] that is not [None]. *)
Definition list_of {A} (f : json -> Validated A) (v : json) : Validated (list A) :=
  match v with
  | JList l => validate_items (not_none f) 0 l
  | _ => fail_with ListError
  end.

(** [dict_validator]: a [dict] as it is, anything else through [dict]. *)
Definition dict_validator (v : json) : option (list (json * json)) :=
  match v with
  | JDict d => Some (map (fun kv => (JStr (fst kv), snd kv)) d)
  | _ => dict_of v
  end.

(** The loop of [_validate_mapping_like]: the key as a [str], then the
    value; an item with an error is skipped; [result[key] = value]. *)
Fixpoint validate_mapping {A} (f : json -> Validated A) (items : list (json * json))
  (result : dict A) (errs : list ErrorWrapper) : Validated (dict A) :=
  match items with
  | [] => match errs with [] => Valid result | _ => Invalid errs end
  | (k, v) :: items' =>
      match at_loc LKey (not_none str_validator k) with
      | Aborted e => Aborted e
      | Invalid es => validate_mapping f items' result (errs ++ es)
      | Valid key =>
          match at_loc (LItem k) (f v) with
          | Aborted e => Aborted e
          | Invalid es => validate_mapping f items' result (errs ++ es)
          | Valid value => validate_mapping f items' (dict_set key value result) errs
          end
      end
  end.

(** [Dict[str, T]] *)
Definition dict_of_str {A} (f : json -> Validated A) (v : json) : Validated (dict A) :=
  match dict_validator v with
  | Some items => validate_mapping f items [] []
  | None => fail_with DictError
  end.

(** The keyword arguments of a call of [cls] on the items of a mapping:
    every key must be a [str]. *)
Fixpoint keywords (items : list (json * json)) : option (dict json) :=
  match items with
  | [] => Some []
  | (JStr k, v) :: items' => option_map (cons (k, v)) (keywords items')
  | _ :: _ => None
  end.

(** The keyword arguments [Model.validate(value)] calls the model with: the
    items of a [dict], or of [dict(value)]. *)
Definition as_keywords (v : json) : Validated (dict json) :=
  match v with
  | JDict d => Valid d
  | _ =>
      match dict_of v with
      | None => fail_with DictError
      | Some items =>
          match keywords items with
          | Some d => Valid d
          | None => fail_with KeywordsMustBeStrings
          end
      end
  end.

(** [Model.validate(value)], the validator of a field whose type is a
    model with constructor [init]. *)
Definition model_validator {A} (init : dict json -> Validated A) (v : json) : Validated A :=
  match as_keywords v with
  | Valid d => init d
  | Invalid es => Invalid es
  | Aborted e => Aborted e
  end.

(** A field without a default: required. *)
Definition required {A} (name : string) (f : json -> Validated A) (data : dict json)
  : Validated A :=
  match dict_get (lit name) data with
  | None => Invalid [{| loc := [LField (lit name)]; kind := MissingError |}]
  | Some v => at_loc (LField (lit name)) (not_none f v)
  end.

(** An [Optional] field without a default: not required, [None] when
    absent. *)
Definition optional {A} (name : string) (f : json -> Validated A) (data : dict json)
  : Validated (option A) :=
  match dict_get (lit name) data with
  | None => Valid None
  | Some v => at_loc (LField (lit name)) (or_none f v)
  end.

End Validators.

(** ** The data model (models.py) *)

Inductive ActivityLevel :=
| SEDENTARY | LIGHTLY_ACTIVE | MODERATELY_ACTIVE | VERY_ACTIVE | EXTREMELY_ACTIVE.

Definition ActivityLevel_value (a : ActivityLevel) : text :=
  match a with
  | SEDENTARY => lit "sedentary"
  | LIGHTLY_ACTIVE => lit "lightly_active"
  | MODERATELY_ACTIVE => lit "moderately_active"
  | VERY_ACTIVE => lit "very_active"
  | EXTREMELY_ACTIVE => lit "extremely_active"
  end.

Definition ActivityLevel_members : list ActivityLevel :=
  [SEDENTARY; LIGHTLY_ACTIVE; MODERATELY_ACTIVE; VERY_ACTIVE; EXTREMELY_ACTIVE].

Inductive Goal :=
| WEIGHT_LOSS | WEIGHT_GAIN | MAINTENANCE | MUSCLE_GAIN | GENERAL_HEALTH.

Definition Goal_value (g : Goal) : text :=
  match g with
  | WEIGHT_LOSS => lit "weight_loss"
  | WEIGHT_GAIN => lit "weight_gain"
  | MAINTENANCE => lit "maintenance"
  | MUSCLE_GAIN => lit "muscle_gain"
  | GENERAL_HEALTH => lit "general_health"
  end.

Definition Goal_members : list Goal :=
  [WEIGHT_LOSS; WEIGHT_GAIN; MAINTENANCE; MUSCLE_GAIN; GENERAL_HEALTH].

Inductive DietaryRestriction :=
| NONE | VEGETARIAN | VEGAN | GLUTEN_FREE | DAIRY_FREE | NUT_FREE | LOW_CARB | KETO | PALEO.

Definition DietaryRestriction_value (r : DietaryRestriction) : text :=
  match r with
  | NONE => lit "none"
  | VEGETARIAN => lit "vegetarian"
  | VEGAN => lit "vegan"
  | GLUTEN_FREE => lit "gluten_free"
  | DAIRY_FREE => lit "dairy_free"
  | NUT_FREE => lit "nut_free"
  | LOW_CARB => lit "low_carb"
  | KETO => lit "keto"
  | PALEO => lit "paleo"
  end.

Definition DietaryRestriction_members : list DietaryRestriction :=
  [NONE; VEGETARIAN; VEGAN; GLUTEN_FREE; DAIRY_FREE; NUT_FREE; LOW_CARB; KETO; PALEO].

Inductive MealTime := BREAKFAST | LUNCH | DINNER | SNACKS.

Definition MealTime_value (m : MealTime) : text :=
  match m with
  | BREAKFAST => lit "breakfast"
  | LUNCH => lit "lunch"
  | DINNER => lit "dinner"
  | SNACKS => lit "snacks"
  end.

Definition MealTime_members : list MealTime := [BREAKFAST; LUNCH; DINNER; SNACKS].

Record UserProfile := {
  name : text;
  age : Z;
  gender : text;
  height_cm : float;
  weight_kg : float;
  target_weight_kg : option float;
  activity_level : ActivityLevel;
  goal : Goal;
  dietary_restrictions : list DietaryRestriction;
  allergies : list text;
  preferences : list text;
  dislikes : list text;
  daily_routine : dict text;
  cooking_skill : text;
  budget_constraint : option text;
  cultural_preferences : list text
}.

Record MealPlan := {
  meal_time : MealTime;
  meal_name : text;
  description : text;
  ingredients : list text;
  instructions : list text;
  nutrition_info : dict json;
  prep_time : text;
  cooking_time : text;
  difficulty : text
}.

Record DailyPlan := {
  day : text;
  meals : list MealPlan;
  total_calories : Z;
  total_protein : float;
  total_carbs : float;
  total_fat : float;
  notes : option text
}.

Record WeeklyDietPlan := {
  user_profile : UserProfile;
  daily_plans : list DailyPlan;
  weekly_summary : dict json;
  recommendations : list text;
  shopping_list : list text;
  created_date : text
}.

(** *** Validation of the keyword arguments of each model

    Fields are taken in the order of the class body; a key that is no field
    is ignored. *)

Section Models.
Context {py : Builtins}.

Definition UserProfile_init (data : dict json) : Validated UserProfile :=
  Valid Build_UserProfile
    <*> required "name" str_validator data
    <*> required "age" int_validator data
    <*> required "gender" str_validator data
    <*> required "height_cm" float_validator data
    <*> required "weight_kg" float_validator data
    <*> optional "target_weight_kg" float_validator data
    <*> required "activity_level"
          (enum_member_validator ActivityLevel_members ActivityLevel_value) data
    <*> required "goal" (enum_member_validator Goal_members Goal_value) data
    <*> required "dietary_restrictions"
          (list_of (enum_member_validator DietaryRestriction_members DietaryRestriction_value))
          data
    <*> required "allergies" (list_of str_validator) data
    <*> required "preferences" (list_of str_validator) data
    <*> required "dislikes" (list_of str_validator) data
    <*> required "daily_routine" (dict_of_str (not_none str_validator)) data
    <*> required "cooking_skill" str_validator data
    <*> optional "budget_constraint" str_validator data
    <*> required "cultural_preferences" (list_of str_validator) data.

Definition MealPlan_init (data : dict json) : Validated MealPlan :=
  Valid Build_MealPlan
    <*> required "meal_time" (enum_member_validator MealTime_members MealTime_value) data
    <*> required "meal_name" str_validator data
    <*> required "description" str_validator data
    <*> required "ingredients" (list_of str_validator) data
    <*> required "instructions" (list_of str_validator) data
    <*> required "nutrition_info" (dict_of_str any_validator) data
    <*> required "prep_time" str_validator data
    <*> required "cooking_time" str_validator data
    <*> required "difficulty" str_validator data.

Definition DailyPlan_init (data : dict json) : Validated DailyPlan :=
  Valid Build_DailyPlan
    <*> required "day" str_validator data
    <*> required "meals" (list_of (model_validator MealPlan_init)) data
    <*> required "total_calories" int_validator data
    <*> required "total_protein" float_validator data
    <*> required "total_carbs" float_validator data
    <*> required "total_fat" float_validator data
    <*> optional "notes" str_validator data.

Definition WeeklyDietPlan_init (data : dict json) : Validated WeeklyDietPlan :=
  Valid Build_WeeklyDietPlan
    <*> required "user_profile" (model_validator UserProfile_init) data
    <*> required "daily_plans" (list_of (model_validator DailyPlan_init)) data
    <*> required "weekly_summary" (dict_of_str any_validator) data
    <*> required "recommendations" (list_of str_validator) data
    <*> required "shopping_list" (list_of str_validator) data
    <*> required "created_date" str_validator data.

(** [Model] called on the items of the value [data] that [json.loads] returned: a
    [ValidationError] with the errors collected, and a [TypeError] when
    [data] is not a mapping. *)
Definition construct {A} (init : dict json -> Validated A) (data : json) : PyException + A :=
  match data with
  | JDict d =>
      match init d with
      | Valid a => inr a
      | Invalid es => inl (ValidationError es)
      | Aborted e => inl e
      end
  | _ => inl TypeError_not_a_mapping
  end.

End Models.

(** ** Configuration, prompts and the completion service *)

(** config.py: the two settings the pipeline reads from the process
    environment. *)
Class Config := {
  OPENAI_API_KEY : option text;
  OPENAI_MODEL : text
}.

Record CotPrompts := {
  profile_extraction : text;
  meal_planning : text;
  nutrition_calculation : text
}.

(** The long literals of ai_dietitian.py (the persona, the example
    exchanges, the reasoning prompts and the two schema blocks), the JSON
    text of a profile and the renderer of pdf_generator.py: no property
    below depends on what they contain. *)
Class Prompts := {
  _get_system_prompt : text;
  _get_few_shot_examples : list (text * text);
  _get_cot_prompts : CotPrompts;
  profile_schema_block : text;
  plan_schema_block : text;
  (** [user_profile.json(indent=2)] *)
  profile_json : UserProfile -> text;
  (** [generate_diet_plan_pdf(plan)]; [Some e]: the exception it raised *)
  generate_diet_plan_pdf : WeeklyDietPlan -> option PyException
}.

Module ChatCompletion.

(** The keyword arguments of [openai.ChatCompletion.create]. *)
Record request := {
  model : text;
  messages : list Message;
  max_tokens : Z;
  temperature : float
}.

(** What the call gives: [response.choices[0].message.content], or the
    text of the exception raised on the way. *)
Inductive reply :=
| Completion (content : text)
| Failure (e : text).

End ChatCompletion.

(** The service answers the [n]-th call of a run with a reply of its own
    choosing. *)
Class Service := {
  respond : nat -> ChatCompletion.request -> ChatCompletion.reply
}.

(** A service that gives the same reply to every call. *)
Definition always (r : ChatCompletion.reply) : Service :=
  {| respond := fun _ _ => r |}.

(** ** The world: session state, calls made, output *)

Module session_state.

(** The four keys of [st.session_state]. *)
Record t := {
  messages : list Message;
  user_profile : option UserProfile;
  diet_plan : option WeeklyDietPlan;
  conversation_complete : bool
}.

End session_state.

(** What the page shows about an action. *)
Inductive Notice :=
| ProfileExtracted
| CouldNotExtractProfile
| DietPlanGenerated
| CouldNotGenerateDietPlan
| PdfOffered
| MissingProfileOrPlan
| ErrorNotice (prefix e : text).

(** [session] is [None] for a browser session whose store is still empty:
    [initialize_session_state] sets the four keys together and nothing
    deletes one. *)
Record World := {
  session : option session_state.t;
  calls : list ChatCompletion.request;
  stdout : list text;
  page : list Notice
}.

(** [RerunException] is raised by [st.rerun()] and is not an [Exception]. *)
Inductive raised :=
| Exception (e : PyException)
| RerunException.

Inductive outcome (A : Type) :=
| Return (a : A)
| Raise (r : raised).
Arguments Return {A} a.
Arguments Raise {A} r.

(** A computation: runs in a world, returns or raises, leaves a world. *)
Definition Py (A : Type) := World -> outcome A * World.

Definition ret {A} (a : A) : Py A := fun w => (Return a, w).

Definition raise {A} (e : PyException) : Py A := fun w => (Raise (Exception e), w).

Definition bind {A B} (m : Py A) (k : A -> Py B) : Py B :=
  fun w =>
    match m w with
    | (Return a, w') => k a w'
    | (Raise r, w') => (Raise r, w')
    end.

(** [try: body except Exception as e: handler] *)
Definition try_except {A} (body : Py A) (handler : PyException -> Py A) : Py A :=
  fun w =>
    match body w with
    | (Raise (Exception e), w') => handler e w'
    | r => r
    end.

Declare Scope py_scope.
Delimit Scope py_scope with py.
Notation "x <- m ;; k" := (bind m (fun x => k))
  (at level 61, m at next level, right associativity) : py_scope.
Notation "m ;; k" := (bind m (fun _ => k))
  (at level 61, right associativity) : py_scope.
Open Scope py_scope.

Definition print (line : text) : Py unit :=
  fun w => (Return tt, {| session := session w; calls := calls w;
                          stdout := stdout w ++ [line]; page := page w |}).

Definition notice (n : Notice) : Py unit :=
  fun w => (Return tt, {| session := session w; calls := calls w;
                          stdout := stdout w; page := page w ++ [n] |}).

(** [st.rerun()] *)
Definition st_rerun {A} : Py A := fun w => (Raise RerunException, w).

(** Reading a key of [st.session_state]. *)
Definition st_get {A} (key : session_state.t -> A) : Py A :=
  fun w =>
    match session w with
    | Some s => (Return (key s), w)
    | None => (Raise (Exception AttributeError), w)
    end.

(** Assigning to a key, or mutating its value in place. *)
Definition st_update (f : session_state.t -> session_state.t) : Py unit :=
  fun w =>
    match session w with
    | Some s => (Return tt, {| session := Some (f s); calls := calls w;
                               stdout := stdout w; page := page w |})
    | None => (Raise (Exception AttributeError), w)
    end.

(** ** The dietitian service (ai_dietitian.py) *)

Section Dietitian.
Context {py : Builtins} {cfg : Config} {prompts : Prompts} {svc : Service}.

Definition nl : text := [10%N].

(** [str(e)] *)
Definition str_exn (e : PyException) : text :=
  match e with
  | OpenAIError msg => msg
  | ConfigValueError => lit "OPENAI_API_KEY environment variable is required"
  | _ => exception_message e
  end.

(** [Config.validate()] *)
Definition Config_validate : Py bool :=
  match OPENAI_API_KEY with
  | Some (_ :: _) => ret true
  | _ => raise ConfigValueError
  end.

Record AIDietitian := {
  model : text;
  system_prompt : text;
  few_shot_examples : list (text * text);
  cot_prompts : CotPrompts
}.

(** The attributes [__init__] sets. *)
Definition AIDietitian_attributes : AIDietitian :=
  {| model := OPENAI_MODEL;
     system_prompt := _get_system_prompt;
     few_shot_examples := _get_few_shot_examples;
     cot_prompts := _get_cot_prompts |}.

(** [AIDietitian()] *)
Definition AIDietitian_init : Py AIDietitian :=
  Config_validate ;;
  ret AIDietitian_attributes.

(** The call of the service and the reading of its reply: the request is
    recorded, and a failure is an exception raised to the caller. *)
Definition ChatCompletion_create (req : ChatCompletion.request) : Py text :=
  fun w =>
    let w' := {| session := session w; calls := calls w ++ [req];
                 stdout := stdout w; page := page w |} in
    match respond (length (calls w)) req with
    | ChatCompletion.Completion c => (Return c, w')
    | ChatCompletion.Failure e => (Raise (Exception (OpenAIError e)), w')
    end.

Definition message (r : string) (c : text) : Message := {| role := lit r; content := c |}.

Definition apology : text :=
  lit "I apologize, but I'm experiencing technical difficulties. Please try again. Error: ".

(** The message list [chat] sends. *)
Definition chat_messages (self : AIDietitian) (msg : text) (conversation_history : list Message)
  : list Message :=
  let messages := [message "system" (system_prompt self)] in
  let messages :=
    messages ++ flat_map (fun example => [message "user" (fst example);
                                          message "assistant" (snd example)])
                         (few_shot_examples self) in
  let messages := messages ++ conversation_history in
  messages ++ [message "user" msg].

Definition chat_request (self : AIDietitian) (msg : text) (conversation_history : list Message)
  : ChatCompletion.request :=
  {| ChatCompletion.model := model self;
     ChatCompletion.messages := chat_messages self msg conversation_history;
     ChatCompletion.max_tokens := 500;
     ChatCompletion.temperature := 0.7 |}.

Definition chat (self : AIDietitian) (msg : text) (conversation_history : list Message)
  : Py text :=
  try_except
    (ChatCompletion_create (chat_request self msg conversation_history))
    (fun e => ret (apology ++ str_exn e)).

Definition extraction_prompt (self : AIDietitian) (conversation_history : list Message) : text :=
  let cot_prompt := profile_extraction (cot_prompts self) in
  lit "Based on the conversation history below, extract the user's complete profile in a structured JSON format."
  ++ nl ++ nl ++ cot_prompt ++ nl ++ nl
  ++ lit "Conversation History:" ++ nl ++ json_dumps conversation_history ++ nl ++ nl
  ++ lit "Please extract all available information and return ONLY a valid JSON object that matches this structure:"
  ++ nl ++ profile_schema_block ++ nl ++ nl
  ++ lit "If any information is not available, use null or empty arrays as appropriate. Return ONLY the JSON, no additional text.".

Definition extraction_request (self : AIDietitian) (conversation_history : list Message)
  : ChatCompletion.request :=
  {| ChatCompletion.model := model self;
     ChatCompletion.messages :=
       [message "system"
          (lit "You are a data extraction specialist. Extract user information and return ONLY valid JSON.");
        message "user" (extraction_prompt self conversation_history)];
     ChatCompletion.max_tokens := 1000;
     ChatCompletion.temperature := 0.1 |}.

(** [json.loads(content)] *)
Definition loads (content : text) : Py json :=
  match json_loads content with
  | Some v => ret v
  | None => raise JSONDecodeError
  end.

(** A model called on the decoded value. *)
Definition new {A} (init : dict json -> Validated A) (data : json) : Py A :=
  match construct init data with
  | inr a => ret a
  | inl e => raise e
  end.

(** The body of the [try] of [extract_user_profile]. *)
Definition extract_attempt (self : AIDietitian) (conversation_history : list Message)
  : Py UserProfile :=
  raw <- ChatCompletion_create (extraction_request self conversation_history) ;;
  let content := sanitize raw in
  profile_data <- loads content ;;
  new UserProfile_init profile_data.

Definition extract_user_profile (self : AIDietitian) (conversation_history : list Message)
  : Py (option UserProfile) :=
  try_except
    (profile <- extract_attempt self conversation_history ;; ret (Some profile))
    (fun e => print (lit "Error extracting user profile: " ++ str_exn e) ;; ret None).

Definition plan_prompt (self : AIDietitian) (profile : UserProfile) : text :=
  let cot_prompt := meal_planning (cot_prompts self) in
  lit "Create a personalized weekly diet plan for the user based on their profile."
  ++ nl ++ nl ++ cot_prompt ++ nl ++ nl
  ++ lit "User Profile:" ++ nl ++ profile_json profile ++ nl ++ nl
  ++ lit "Please create a complete weekly diet plan and return ONLY a valid JSON object that matches this structure:"
  ++ nl ++ plan_schema_block ++ nl ++ nl
  ++ lit "Make the plan practical, culturally appropriate, and aligned with their goals and preferences. Return ONLY the JSON, no additional text.".

Definition plan_request (self : AIDietitian) (profile : UserProfile) : ChatCompletion.request :=
  {| ChatCompletion.model := model self;
     ChatCompletion.messages :=
       [message "system"
          (lit "You are a nutrition expert. Create personalized diet plans and return ONLY valid JSON.");
        message "user" (plan_prompt self profile)];
     ChatCompletion.max_tokens := 2000;
     ChatCompletion.temperature := 0.3 |}.

(** The body of the [try] of [create_diet_plan]. *)
Definition plan_attempt (self : AIDietitian) (profile : UserProfile) : Py WeeklyDietPlan :=
  raw <- ChatCompletion_create (plan_request self profile) ;;
  let content := sanitize raw in
  plan_data <- loads content ;;
  new WeeklyDietPlan_init plan_data.

Definition create_diet_plan (self : AIDietitian) (profile : UserProfile)
  : Py (option WeeklyDietPlan) :=
  try_except
    (plan <- plan_attempt self profile ;; ret (Some plan))
    (fun e => print (lit "Error creating diet plan: " ++ str_exn e) ;; ret None).

End Dietitian.

(** ** The page script (app.py)

    Streamlit runs [main] from the top once per interaction; a widget
    returns its value for the interaction that caused the run.  Only what
    the script does to the session, to the service and to the status
    notices is modelled; the rendering of headers, history and plans is
    not. *)

Inductive Button :=
| ExtractProfile | GenerateDietPlan | CompleteSession
| GeneratePDF | StartNewSession | StartOver.

Inductive Event :=
| NoInteraction
| ChatInput (prompt : text)
| Click (b : Button).

Definition Button_eqb (a b : Button) : bool :=
  match a, b with
  | ExtractProfile, ExtractProfile | GenerateDietPlan, GenerateDietPlan
  | CompleteSession, CompleteSession | GeneratePDF, GeneratePDF
  | StartNewSession, StartNewSession | StartOver, StartOver => true
  | _, _ => false
  end.

(** [st.button(label, disabled=...)]: a disabled button is never the one
    clicked. *)
Definition st_button (ev : Event) (b : Button) (disabled : bool) : bool :=
  match ev with
  | Click b' => Button_eqb b' b && negb disabled
  | _ => false
  end.

(** [st.chat_input(...)] *)
Definition st_chat_input (ev : Event) : option text :=
  match ev with
  | ChatInput prompt => Some prompt
  | _ => None
  end.

(** Truth value of an [Optional] model instance and of a list. *)
Definition truthy {A} (o : option A) : bool :=
  match o with Some _ => true | None => false end.

Definition nonempty {A} (l : list A) : bool :=
  match l with [] => false | _ :: _ => true end.

Module Import session_updates.
Import session_state.

Definition fresh : t :=
  {| messages := []; user_profile := None; diet_plan := None;
     conversation_complete := false |}.

Definition append_message (m : Message) (s : t) : t :=
  {| messages := messages s ++ [m]; user_profile := user_profile s;
     diet_plan := diet_plan s; conversation_complete := conversation_complete s |}.

Definition set_user_profile (p : option UserProfile) (s : t) : t :=
  {| messages := messages s; user_profile := p;
     diet_plan := diet_plan s; conversation_complete := conversation_complete s |}.

Definition set_diet_plan (p : option WeeklyDietPlan) (s : t) : t :=
  {| messages := messages s; user_profile := user_profile s;
     diet_plan := p; conversation_complete := conversation_complete s |}.

Definition set_conversation_complete (b : bool) (s : t) : t :=
  {| messages := messages s; user_profile := user_profile s;
     diet_plan := diet_plan s; conversation_complete := b |}.

End session_updates.

Section App.
Context {py : Builtins} {cfg : Config} {prompts : Prompts} {svc : Service}.

Definition initialize_session_state : Py unit :=
  fun w =>
    match session w with
    | Some _ => (Return tt, w)
    | None => (Return tt, {| session := Some fresh; calls := calls w;
                             stdout := stdout w; page := page w |})
    end.

(** The session a run of the script works on: the stored one, or a fresh
    one for a browser session that has none. *)
Definition the_session (w : World) : session_state.t :=
  match session w with
  | Some s => s
  | None => fresh
  end.

(** app.py 216-240: a submitted chat message. *)
Definition chat_section (prompt : text) : Py unit :=
  st_update (append_message (message "user" prompt)) ;;
  try_except
    (ai_dietitian <- AIDietitian_init ;;
     history <- st_get session_state.messages ;;
     response <- chat ai_dietitian prompt history ;;
     st_update (append_message (message "assistant" response)) ;;
     history <- st_get session_state.messages ;;
     stored <- st_get session_state.user_profile ;;
     if (6 <=? length history)%nat && negb (truthy stored) then
       profile <- extract_user_profile ai_dietitian history ;;
       match profile with
       | Some p =>
           st_update (set_user_profile (Some p)) ;;
           notice ProfileExtracted ;;
           st_rerun
       | None => ret tt
       end
     else ret tt)
    (fun e => notice (ErrorNotice (lit "Sorry, I encountered an error: ") (str_exn e))).

(** app.py 245-258: the Extract Profile button. *)
Definition extract_section (ev : Event) : Py unit :=
  history <- st_get session_state.messages ;;
  if st_button ev ExtractProfile (negb (nonempty history)) then
    try_except
      (ai_dietitian <- AIDietitian_init ;;
       history <- st_get session_state.messages ;;
       profile <- extract_user_profile ai_dietitian history ;;
       match profile with
       | Some p =>
           st_update (set_user_profile (Some p)) ;;
           notice ProfileExtracted ;;
           st_rerun
       | None => notice CouldNotExtractProfile
       end)
      (fun e => notice (ErrorNotice (lit "Error: ") (str_exn e)))
  else ret tt.

(** app.py 260-273: the Generate Diet Plan button. *)
Definition generate_section (ev : Event) : Py unit :=
  stored <- st_get session_state.user_profile ;;
  if st_button ev GenerateDietPlan (negb (truthy stored)) then
    try_except
      (ai_dietitian <- AIDietitian_init ;;
       stored <- st_get session_state.user_profile ;;
       match stored with
       | Some profile =>
           plan <- create_diet_plan ai_dietitian profile ;;
           match plan with
           | Some p =>
               st_update (set_diet_plan (Some p)) ;;
               notice DietPlanGenerated ;;
               st_rerun
           | None => notice CouldNotGenerateDietPlan
           end
       | None => raise AttributeError
       end)
      (fun e => notice (ErrorNotice (lit "Error: ") (str_exn e)))
  else ret tt.

(** app.py 275-278: the Complete Session button. *)
Definition complete_section (ev : Event) : Py unit :=
  stored <- st_get session_state.diet_plan ;;
  if st_button ev CompleteSession (negb (truthy stored)) then
    st_update (set_conversation_complete true) ;;
    st_rerun
  else ret tt.

(** app.py 316-321 and 325-330: both reset buttons. *)
Definition reset_session : Py unit :=
  st_update (fun _ => fresh) ;;
  st_rerun.

(** app.py 280-330: the results page. *)
Definition results_section (ev : Event) : Py unit :=
  profile <- st_get session_state.user_profile ;;
  plan <- st_get session_state.diet_plan ;;
  match profile, plan with
  | Some _, Some p =>
      (if st_button ev GeneratePDF false then
         try_except
           (match generate_diet_plan_pdf p with
            | Some e => raise e
            | None => notice PdfOffered
            end)
           (fun e => notice (ErrorNotice (lit "Error generating PDF: ") (str_exn e)))
       else ret tt) ;;
      if st_button ev StartNewSession false then reset_session else ret tt
  | _, _ =>
      notice MissingProfileOrPlan ;;
      if st_button ev StartOver false then reset_session else ret tt
  end.

Definition main (ev : Event) : Py unit :=
  initialize_session_state ;;
  complete <- st_get session_state.conversation_complete ;;
  if negb complete then
    match st_chat_input ev with
    | Some (c :: rest) => chat_section (c :: rest)
    | _ => ret tt
    end ;;
    extract_section ev ;;
    generate_section ev ;;
    complete_section ev
  else results_section ev.

End App.

(** ** The properties of the specification, in its words *)

(** The states of the session machine, read off the stored values. *)
Inductive SessionState := Idle | Chatting | ProfileReady | PlanReady | Finalized.

Definition state_of (s : session_state.t) : SessionState :=
  if session_state.conversation_complete s then Finalized
  else if truthy (session_state.diet_plan s) then PlanReady
  else if truthy (session_state.user_profile s) then ProfileReady
  else if nonempty (session_state.messages s) then Chatting
  else Idle.

(** The list-typed fields of a profile. *)
Definition list_typed_fields : list string :=
  ["dietary_restrictions"; "allergies"; "preferences"; "dislikes";
   "cultural_preferences"]%string.

(** The field value [x] is what the validator [f] makes of the value the
    mapping [data] has under [key]. *)
Definition supplied {A} (key : string) (f : json -> Validated A) (data : dict json) (x : A)
  : Prop :=
  exists v, dict_get (lit key) data = Some v /\ v <> JNull /\ f v = Valid x.

(** An integer figure of a nutrition mapping. *)
Definition figure (key : string) (info : dict json) : Z :=
  match dict_get (lit key) info with
  | Some (JInt n) => n
  | _ => 0%Z
  end.

(** The calories of the meals of a day, summed. *)
Definition meal_calories (d : DailyPlan) : Z :=
  fold_right Z.add 0%Z (map (fun m => figure "calories" (nutrition_info m)) (meals d)).

(** The daily calorie totals of a plan, summed. *)
Definition daily_calories (p : WeeklyDietPlan) : Z :=
  fold_right Z.add 0%Z (map total_calories (daily_plans p)).

(** ** Sample documents and a sample runtime *)

Module Sample.

#[local] Open Scope string_scope.
#[local] Open Scope list_scope.

Definition quote : text := [34%N].

Definition decimal (n : Z) : text := lit (NilZero.string_of_int (Z.to_int n)).

Fixpoint join (sep : text) (parts : list text) : text :=
  match parts with
  | [] => []
  | [p] => p
  | p :: rest => p ++ sep ++ join sep rest
  end.

(** The compact JSON text of a tree whose strings need no escape and that
    has no [float] but NaN. *)
Fixpoint compact (v : json) : text :=
  match v with
  | JNull => lit "null"
  | JBool true => lit "true"
  | JBool false => lit "false"
  | JInt n => decimal n
  | JFloat _ => lit "NaN"
  | JStr s => quote ++ s ++ quote
  | JList l => lit "[" ++ join (lit ",") (map compact l) ++ lit "]"
  | JDict d =>
      lit "{"
      ++ join (lit ",")
           (map (fun kv => match kv with
                           | (k, x) => quote ++ k ++ quote ++ lit ":" ++ compact x
                           end) d)
      ++ lit "}"
  end.

Definition str (s : string) : json := JStr (lit s).
Definition strs (l : list string) : json := JList (map str l).
Definition obj (items : list (string * json)) : dict json :=
  map (fun kv => (lit (fst kv), snd kv)) items.

Fixpoint remove (k : text) (d : dict json) : dict json :=
  match d with
  | [] => []
  | (k', v) :: d' => if text_eqb k k' then remove k d' else (k', v) :: remove k d'
  end.

(** The profile of the conversation of demo.py. *)
Definition sarah : dict json :=
  obj [("name", str "Sarah"); ("age", JInt 28); ("gender", str "female");
       ("height_cm", JInt 165); ("weight_kg", JInt 72); ("target_weight_kg", JInt 63);
       ("activity_level", str "sedentary"); ("goal", str "weight_loss");
       ("dietary_restrictions", strs ["none"]);
       ("allergies", strs []);
       ("preferences", strs ["fish"; "vegetables"; "pasta"]);
       ("dislikes", strs ["spicy food"]);
       ("daily_routine", JDict (obj [("wake_up", str "7 AM"); ("dinner", str "7 PM")]));
       ("cooking_skill", str "beginner"); ("budget_constraint", JNull);
       ("cultural_preferences", strs ["Mediterranean"])].

Definition sarah_without_allergies : dict json := remove (lit "allergies") sarah.

Definition sarah_without_optionals : dict json :=
  remove (lit "budget_constraint") (remove (lit "target_weight_kg") sarah).

Definition sarah_negative : dict json :=
  dict_set (lit "target_weight_kg") (JInt (-63))
    (dict_set (lit "weight_kg") (JInt (-72))
       (dict_set (lit "height_cm") (JInt 0) (dict_set (lit "age") (JInt (-5)) sarah))).

Definition meal (time name : string) (calories protein carbs fat : Z) : json :=
  JDict (obj [("meal_time", str time); ("meal_name", str name);
              ("description", str "A simple dish");
              ("ingredients", strs ["fish"; "vegetables"]);
              ("instructions", strs ["prepare"; "serve"]);
              ("nutrition_info",
               JDict (obj [("calories", JInt calories); ("protein", JInt protein);
                           ("carbs", JInt carbs); ("fat", JInt fat)]));
              ("prep_time", str "10 minutes"); ("cooking_time", str "20 minutes");
              ("difficulty", str "easy")]).

(** A day of three meals of 300, 500 and 700 calories with the totals the
    reply states for it. *)
Definition day_of (label : string) (calories : Z) : json :=
  JDict (obj [("day", str label);
              ("meals", JList [meal "breakfast" "Oatmeal" 300 10 50 5;
                               meal "lunch" "Grilled fish" 500 40 40 15;
                               meal "dinner" "Vegetable pasta" 700 25 100 20]);
              ("total_calories", JInt calories); ("total_protein", JInt 75);
              ("total_carbs", JInt 190); ("total_fat", JInt 40);
              ("notes", JNull)]).

Definition plan_of (days : list json) (weekly_calories : Z) : dict json :=
  obj [("user_profile", JDict sarah);
       ("daily_plans", JList days);
       ("weekly_summary",
        JDict (obj [("total_calories", JInt weekly_calories); ("avg_protein", JInt 75);
                    ("avg_carbs", JInt 190); ("avg_fat", JInt 40)]));
       ("recommendations", strs ["Drink water"]);
       ("shopping_list", strs ["oats"; "fish"; "pasta"]);
       ("created_date", str "2024-01-15")].

(** One day whose stated total, 1600, is not the 1500 of its meals. *)
Definition plan_one_day : dict json := plan_of [day_of "Monday" 1600] 1600.

(** Seven days of 1500, 1600, 1500, 1500, 1400, 1600 and 1500 calories with
    a weekly total stated as 10000. *)
Definition plan_week : dict json :=
  plan_of [day_of "Monday" 1500; day_of "Tuesday" 1600; day_of "Wednesday" 1500;
           day_of "Thursday" 1500; day_of "Friday" 1400; day_of "Saturday" 1600;
           day_of "Sunday" 1500] 10000.

Definition documents : list json :=
  [JDict sarah; JDict sarah_without_allergies; JDict sarah_without_optionals;
   JDict sarah_negative; JDict plan_one_day; JDict plan_week; JDict []; JList []].

Definition json_whitespace (c : codepoint) : bool :=
  ((c =? 32) || (c =? 9) || (c =? 10) || (c =? 13))%N.

Fixpoint skip_whitespace (s : text) : text :=
  match s with
  | c :: s' => if json_whitespace c then skip_whitespace s' else s
  | [] => []
  end.

(** A runtime whose [json.loads] reads the compact text of the sample
    documents, with white space around it, and rejects any other text. *)
#[local] Instance runtime : Builtins := {|
  json_loads := fun s =>
    let body := rev (skip_whitespace (rev (skip_whitespace s))) in
    find (fun v => text_eqb (compact v) body) documents;
  json_dumps := fun history =>
    compact (JList (map (fun m => JDict [(lit "role", JStr (role m));
                                         (lit "content", JStr (content m))]) history));
  int_of_str := fun _ => None;
  float_of_str := fun _ => None;
  str_of_int := decimal;
  str_of_float := fun _ => lit "nan";
  dict_of := fun v => match v with JList [] => Some [] | _ => None end;
  exception_message := fun _ => lit "error"
|}.

#[local] Instance config : Config := {|
  OPENAI_API_KEY := Some (lit "sk-sample");
  OPENAI_MODEL := lit "gpt-4"
|}.

#[local] Instance prompts : Prompts := {|
  _get_system_prompt := lit "You are Dr. Sarah Chen, a certified clinical nutritionist.";
  _get_few_shot_examples :=
    [(lit "Hi, I want to lose weight", lit "Hello! I'm Dr. Sarah Chen.")];
  _get_cot_prompts :=
    {| profile_extraction := lit "Let me analyze the conversation systematically...";
       meal_planning := lit "Let me work through this systematically...";
       nutrition_calculation := lit "Let me do the math..." |};
  profile_schema_block := lit "{}";
  plan_schema_block := lit "{}";
  profile_json := fun _ => compact (JDict sarah);
  generate_diet_plan_pdf := fun _ => None
|}.

Definition replying (content : text) : Service :=
  always (ChatCompletion.Completion content).

Definition failing (e : text) : Service :=
  always (ChatCompletion.Failure e).

(** A reply in a fenced block, with the line breaks the service puts around
    the object. *)
Definition padded_object : text := [10%N] ++ lit "{}" ++ [10%N].

(** A document as the service tends to send it: in a fenced block. *)
Definition fenced (v : json) : text :=
  fence_json ++ [10%N] ++ compact v ++ [10%N] ++ fence.

Definition dietitian : AIDietitian :=
  {| model := lit "gpt-4";
     system_prompt := _get_system_prompt;
     few_shot_examples := _get_few_shot_examples;
     cot_prompts := _get_cot_prompts |}.

(** The conversation of demo.py, shortened. *)
Definition conversation : list Message :=
  [message "user" (lit "Hi, I'm Sarah, 28 years old, female, want to lose 20 lbs");
   message "assistant" (lit "Hello Sarah! Tell me more about your lifestyle.");
   message "user" (lit "I work 9-5, mostly sedentary, beginner cook, no allergies")].

(** The errors of a profile validated from the empty object: every field
    without a default is missing. *)
Definition missing_fields : list ErrorWrapper :=
  map (fun k => {| loc := [LField (lit k)]; kind := MissingError |})
      ["name"; "age"; "gender"; "height_cm"; "weight_kg"; "activity_level"; "goal";
       "dietary_restrictions"; "allergies"; "preferences"; "dislikes"; "daily_routine";
       "cooking_skill"; "cultural_preferences"].

(** The profile [sarah] validates to. *)
Definition sarah_profile : UserProfile :=
  {| name := lit "Sarah"; age := 28; gender := lit "female";
     height_cm := 165; weight_kg := 72; target_weight_kg := Some 63%float;
     activity_level := SEDENTARY; goal := WEIGHT_LOSS;
     dietary_restrictions := [NONE]; allergies := [];
     preferences := [lit "fish"; lit "vegetables"; lit "pasta"];
     dislikes := [lit "spicy food"];
     daily_routine := [(lit "wake_up", lit "7 AM"); (lit "dinner", lit "7 PM")];
     cooking_skill := lit "beginner"; budget_constraint := None;
     cultural_preferences := [lit "Mediterranean"] |}.

(** [sarah_negative] as a profile. *)
Definition negative_profile : UserProfile :=
  {| name := lit "Sarah"; age := -5; gender := lit "female";
     height_cm := 0; weight_kg := (-72)%float; target_weight_kg := Some (-63)%float;
     activity_level := SEDENTARY; goal := WEIGHT_LOSS;
     dietary_restrictions := [NONE]; allergies := [];
     preferences := [lit "fish"; lit "vegetables"; lit "pasta"];
     dislikes := [lit "spicy food"];
     daily_routine := [(lit "wake_up", lit "7 AM"); (lit "dinner", lit "7 PM")];
     cooking_skill := lit "beginner"; budget_constraint := None;
     cultural_preferences := [lit "Mediterranean"] |}.

(** [sarah_without_optionals] as a profile. *)
Definition profile_without_optionals : UserProfile :=
  {| name := lit "Sarah"; age := 28; gender := lit "female";
     height_cm := 165; weight_kg := 72; target_weight_kg := None;
     activity_level := SEDENTARY; goal := WEIGHT_LOSS;
     dietary_restrictions := [NONE]; allergies := [];
     preferences := [lit "fish"; lit "vegetables"; lit "pasta"];
     dislikes := [lit "spicy food"];
     daily_routine := [(lit "wake_up", lit "7 AM"); (lit "dinner", lit "7 PM")];
     cooking_skill := lit "beginner"; budget_constraint := None;
     cultural_preferences := [lit "Mediterranean"] |}.

Definition no_plan : WeeklyDietPlan :=
  {| user_profile := sarah_profile; daily_plans := []; weekly_summary := [];
     recommendations := []; shopping_list := []; created_date := [] |}.

Definition accepted {A} (default : A) (r : Validated A) : A :=
  match r with
  | Valid a => a
  | _ => default
  end.

(** [plan_one_day] and [plan_week] as plans. *)
Definition one_day : WeeklyDietPlan :=
  Eval vm_compute in accepted no_plan (WeeklyDietPlan_init plan_one_day).

Definition week : WeeklyDietPlan :=
  Eval vm_compute in accepted no_plan (WeeklyDietPlan_init plan_week).

Definition new_world : World :=
  {| session := None; calls := []; stdout := []; page := [] |}.

Definition world_with (s : session_state.t) : World :=
  {| session := Some s; calls := []; stdout := []; page := [] |}.

(** A session in which the conversation has begun and nothing is stored,
    and one that stores the profile and the plan of earlier runs. *)
Definition chatting_session : session_state.t :=
  {| session_state.messages := conversation;
     session_state.user_profile := None;
     session_state.diet_plan := None;
     session_state.conversation_complete := false |}.

Definition stored_session : session_state.t :=
  {| session_state.messages := conversation;
     session_state.user_profile := Some sarah_profile;
     session_state.diet_plan := Some one_day;
     session_state.conversation_complete := false |}.

(** The extraction of a profile, and the creation of a plan, from a reply
    that is the document [doc] in a fenced block. *)
Abbreviation extraction_of doc :=
  (extract_user_profile (py := runtime) (prompts := prompts) (svc := replying (fenced doc))
     dietitian conversation new_world).

(** A run of the page script against the service [service]. *)
Abbreviation run service ev w :=
  (main (py := runtime) (cfg := config) (prompts := prompts) (svc := service) ev w).

Abbreviation plan_of_reply doc :=
  (create_diet_plan (py := runtime) (prompts := prompts) (svc := replying (fenced doc))
     dietitian sarah_profile new_world).

End Sample.

(** ** Field lists, runs of the script and the setup check

    Definitions for the properties of models.py, ai_dietitian.py, app.py
    and setup.py that follow those of the specification. *)

(** The fields of each model of models.py, and those without which a call
    of the model fails: all but the [Optional] ones. *)
Definition UserProfile_fields : list string :=
  ["name"; "age"; "gender"; "height_cm"; "weight_kg"; "target_weight_kg";
   "activity_level"; "goal"; "dietary_restrictions"; "allergies"; "preferences";
   "dislikes"; "daily_routine"; "cooking_skill"; "budget_constraint";
   "cultural_preferences"]%string.

Definition MealPlan_fields : list string :=
  ["meal_time"; "meal_name"; "description"; "ingredients"; "instructions";
   "nutrition_info"; "prep_time"; "cooking_time"; "difficulty"]%string.

Definition DailyPlan_fields : list string :=
  ["day"; "meals"; "total_calories"; "total_protein"; "total_carbs"; "total_fat";
   "notes"]%string.

Definition WeeklyDietPlan_fields : list string :=
  ["user_profile"; "daily_plans"; "weekly_summary"; "recommendations"; "shopping_list";
   "created_date"]%string.

Definition optional_fields : list string :=
  ["target_weight_kg"; "budget_constraint"; "notes"]%string.

Definition required_of (fields : list string) : list string :=
  filter (fun f => negb (existsb (String.eqb f) optional_fields)) fields.

(** The value under [key] is missing from the arguments or is [None]. *)
Definition missing_or_none (key : string) (data : dict json) : Prop :=
  dict_get (lit key) data = None \/ dict_get (lit key) data = Some JNull.

(** What [chat] returns for a reply of the service. *)
Definition answer (r : ChatCompletion.reply) : text :=
  match r with
  | ChatCompletion.Completion c => c
  | ChatCompletion.Failure e => apology ++ e
  end.

(** The session holds a plan only with a profile, and is complete only
    with a plan. *)
Definition consistent (s : session_state.t) : bool :=
  implb (truthy (session_state.diet_plan s)) (truthy (session_state.user_profile s))
  && implb (session_state.conversation_complete s) (truthy (session_state.diet_plan s)).

Section Runs.
Context {py : Builtins} {cfg : Config} {prompts : Prompts} {svc : Service}.

(** The script run once for each interaction of a list, in their order. *)
Fixpoint runs (evs : list Event) (w : World) : World :=
  match evs with
  | [] => w
  | ev :: evs' => runs evs' (snd (main ev w))
  end.

End Runs.

(** app.py 282 and 323: the reset button the results page shows, Start New
    Session beside the plan when the session has a profile and a plan,
    Start Over otherwise. *)
Definition reset_button (s : session_state.t) : Button :=
  match session_state.user_profile s, session_state.diet_plan s with
  | Some _, Some _ => StartNewSession
  | _, _ => StartOver
  end.

(** [ValueError] and its subclasses among the exceptions of the model. *)
Definition is_ValueError (e : PyException) : bool :=
  match e with
  | ConfigValueError | JSONDecodeError | ValidationError _ => true
  | _ => false
  end.

Section Script.
Context {py : Builtins} {cfg : Config} {prompts : Prompts} {svc : Service}.

(** app.py 332-346, the block Streamlit runs for each interaction: the
    configuration is validated, then [main] is called; a [ValueError] is
    shown as a configuration error, another exception as an application
    error.  The key is the one config.py read when it was imported. *)
Definition app_script (ev : Event) : Py unit :=
  try_except
    (Config_validate ;;
     main ev)
    (fun e =>
       if is_ValueError e
       then notice (ErrorNotice (lit "Configuration Error: ") (str_exn e))
       else notice (ErrorNotice (lit "Application Error: ") (str_exn e))).

End Script.

(** A configuration without a key. *)
Definition unconfigured : Config :=
  {| OPENAI_API_KEY := None; OPENAI_MODEL := lit "gpt-4" |}.

(** ** The key check of the setup script (setup.py)

    [dotenv] tells whether [python-dotenv] can be imported; the key is the
    value of the variable once the [.env] file is loaded, which is what
    config.py reads too. *)

(** The key of the [.env] template that [create_env_file] writes. *)
Definition placeholder : text := lit "your_openai_api_key_here".

Section Setup.
Context {cfg : Config}.

Definition check_openai_key (dotenv : bool) : Py bool :=
  print ([10%N; 128273%N] ++ lit " Checking OpenAI API key...") ;;
  if dotenv then
    let api_key := OPENAI_API_KEY in
    if negb (match api_key with Some (_ :: _) => true | _ => false end)
       || match api_key with Some k => text_eqb k placeholder | None => false end
    then
      print ([10060%N] ++ lit " OpenAI API key not configured") ;;
      print (lit "   Please edit the .env file and add your API key") ;;
      ret false
    else
      print ([9989%N] ++ lit " OpenAI API key configured") ;;
      ret true
  else
    print ([10060%N] ++ lit " python-dotenv not installed") ;;
    ret false.

End Setup.

(** * Properties *)

(** ** Strings *)

Lemma text_eqb_refl (a : text) : text_eqb a a = true.
Proof.
  induction a as [|x a IH]; simpl; [reflexivity|].
  now rewrite N.eqb_refl, IH.
Qed.

Lemma text_eqb_eq (a b : text) : text_eqb a b = true <-> a = b.
Proof.
  split.
  - revert b; induction a as [|x a IH]; destruct b as [|y b]; simpl; try discriminate; auto.
    intros H; apply andb_prop in H as [Hx Hab].
    apply N.eqb_eq in Hx; subst; f_equal; auto.
  - intros ->; apply text_eqb_refl.
Qed.

Lemma startswith_app (p s : text) : startswith p (p ++ s) = true.
Proof.
  induction p as [|x p IH]; simpl; [reflexivity|].
  now rewrite N.eqb_refl, IH.
Qed.

Lemma endswith_app (p s : text) : endswith p (s ++ p) = true.
Proof.
  unfold endswith; rewrite rev_app_distr; apply startswith_app.
Qed.

Lemma slice_from_app (p s : text) : slice_from (length p) (p ++ s) = s.
Proof.
  unfold slice_from; induction p as [|x p IH]; simpl; auto.
Qed.

Lemma slice_to_neg_app (p s : text) : slice_to_neg (length p) (s ++ p) = s.
Proof.
  unfold slice_to_neg; rewrite length_app, Nat.add_sub.
  induction s as [|x s IH]; simpl; [reflexivity|now rewrite IH].
Qed.

Lemma lstrip_left_trimmed (s : text) : left_trimmed (lstrip s).
Proof.
  induction s as [|c s IH]; simpl; [exact I|].
  destruct (isspace c) eqn:E; [exact IH|exact E].
Qed.

Lemma lstrip_fixed (s : text) : left_trimmed s -> lstrip s = s.
Proof.
  destruct s as [|c s]; simpl; [reflexivity|].
  now intros ->.
Qed.

Lemma lstrip_idempotent (s : text) : lstrip (lstrip s) = lstrip s.
Proof. apply lstrip_fixed, lstrip_left_trimmed. Qed.

Lemma lstrip_snoc (s : text) (c : codepoint) :
  lstrip (s ++ [c]) =
  match lstrip s with
  | [] => if isspace c then [] else [c]
  | u => u ++ [c]
  end.
Proof.
  induction s as [|x s IH]; simpl; [reflexivity|].
  destruct (isspace x); [exact IH|reflexivity].
Qed.

Lemma rstrip_cons (c : codepoint) (s : text) :
  rstrip (c :: s) =
  match rstrip s with
  | [] => if isspace c then [] else [c]
  | u => c :: u
  end.
Proof.
  unfold rstrip; simpl rev; rewrite lstrip_snoc.
  destruct (lstrip (rev s)) as [|y u] eqn:E; simpl.
  - destruct (isspace c); reflexivity.
  - rewrite rev_app_distr; simpl.
    destruct (rev u ++ [y]) eqn:E'; [|reflexivity].
    now destruct (rev u).
Qed.

Lemma rstrip_left_trimmed (s : text) : left_trimmed s -> left_trimmed (rstrip s).
Proof.
  destruct s as [|c s]; simpl; [intros _; exact I|].
  intros Hc; rewrite rstrip_cons.
  destruct (rstrip s); simpl; [now rewrite Hc|assumption].
Qed.

Lemma rstrip_idempotent (s : text) : rstrip (rstrip s) = rstrip s.
Proof.
  unfold rstrip; now rewrite rev_involutive, lstrip_idempotent.
Qed.

Lemma rstrip_snoc (s : text) (c : codepoint) :
  isspace c = false -> rstrip (s ++ [c]) = s ++ [c].
Proof.
  intros Hc; unfold rstrip; rewrite rev_app_distr; simpl.
  now rewrite Hc; simpl; rewrite rev_involutive.
Qed.

Lemma strip_idempotent (s : text) : strip (strip s) = strip s.
Proof.
  unfold strip.
  rewrite lstrip_fixed by apply rstrip_left_trimmed, lstrip_left_trimmed.
  apply rstrip_idempotent.
Qed.

(** A text between two code points that are not white space is its own
    trimmed form. *)
Lemma strip_fixed (a b : codepoint) (s : text) :
  isspace a = false -> isspace b = false -> strip (a :: s ++ [b]) = a :: s ++ [b].
Proof.
  intros Ha Hb; unfold strip.
  rewrite lstrip_fixed by exact Ha.
  now rewrite app_comm_cons, rstrip_snoc.
Qed.

(** ** The cleaning of a reply *)

Lemma sanitize_unfenced (raw : text) :
  startswith fence_json (strip raw) = false ->
  endswith fence (strip raw) = false ->
  sanitize raw = strip raw.
Proof.
  intros H1 H2; unfold sanitize; now rewrite H1, H2.
Qed.

Lemma strip_fenced (inner : text) :
  strip (fence ++ inner ++ fence) = fence ++ inner ++ fence.
Proof.
  replace (fence ++ inner ++ fence)
    with (96%N :: ([96; 96]%N ++ inner ++ [96; 96]%N) ++ [96%N]).
  - now apply strip_fixed.
  - rewrite <- !app_assoc; reflexivity.
Qed.

Lemma fence_json_tagged : fence_json = fence ++ lit "json".
Proof. reflexivity. Qed.

Lemma strip_json_fenced (body : text) :
  strip (fence_json ++ body ++ fence) = fence_json ++ body ++ fence.
Proof.
  rewrite fence_json_tagged, <- app_assoc, (app_assoc (lit "json")).
  apply strip_fenced.
Qed.

Lemma sanitize_json_fence (body : text) : sanitize (fence_json ++ body ++ fence) = body.
Proof.
  unfold sanitize.
  rewrite strip_json_fenced, startswith_app.
  change 7%nat with (length fence_json); rewrite slice_from_app.
  rewrite endswith_app.
  change 3%nat with (length fence); apply slice_to_neg_app.
Qed.

(** C3, as the code has it.  The cleaning trims the reply, removes a
    leading [```json] and then a trailing [```], and does not trim again:
    a reply [```json + T + ```] gives [T] itself, which is [trim(T)] only
    after one more trim; and the cleaning is idempotent on every text whose
    trimmed form has neither marker, where it is the trim. *)
Theorem sanitize_fenced_and_idempotent (T : text) :
  sanitize (fence_json ++ T ++ fence) = T
  /\ strip (sanitize (fence_json ++ T ++ fence)) = strip T
  /\ (startswith fence_json (strip T) = false ->
      endswith fence (strip T) = false ->
      sanitize T = strip T
      /\ sanitize (sanitize T) = sanitize T
      /\ sanitize (sanitize (fence_json ++ T ++ fence)) = strip T).
Proof.
  rewrite sanitize_json_fence.
  split; [reflexivity|split; [reflexivity|]].
  intros Hopen Hclose.
  pose proof (sanitize_unfenced T Hopen Hclose) as HT.
  split; [exact HT|split; [|exact HT]].
  rewrite !HT.
  transitivity (strip (strip T)); [|apply strip_idempotent].
  apply sanitize_unfenced; now rewrite strip_idempotent.
Qed.

Lemma sanitize_fenced_and_idempotent_witness :
  sanitize (fence_json ++ Sample.padded_object ++ fence) = Sample.padded_object
  /\ sanitize Sample.padded_object = lit "{}"
  /\ sanitize (sanitize Sample.padded_object) = sanitize Sample.padded_object
  /\ sanitize (sanitize (fence_json ++ Sample.padded_object ++ fence)) = lit "{}".
Proof.
  destruct (sanitize_fenced_and_idempotent Sample.padded_object) as (H1 & _ & H3).
  destruct (H3 eq_refl eq_refl) as (H4 & H5 & H6).
  split; [exact H1|split; [exact H4|split; [exact H5|exact H6]]].
Defined.

(** C3, as the specification has it, fails on the code: for the reply
    [```json\n{}\n```] the cleaning gives [\n{}\n], which is not the
    trimmed [{}], and cleaning that again gives [{}]. *)
Lemma sanitize_neither_trims_nor_is_idempotent :
  sanitize (fence_json ++ Sample.padded_object ++ fence) = Sample.padded_object
  /\ strip Sample.padded_object = lit "{}"
  /\ sanitize (fence_json ++ Sample.padded_object ++ fence) <> strip Sample.padded_object
  /\ sanitize (sanitize (fence_json ++ Sample.padded_object ++ fence)) = lit "{}"
  /\ sanitize (sanitize (fence_json ++ Sample.padded_object ++ fence))
     <> sanitize (fence_json ++ Sample.padded_object ++ fence).
Proof.
  repeat split; try reflexivity; vm_compute; discriminate.
Qed.

(** ** The dietitian service *)

Section DietitianFacts.
Context {py : Builtins} {prompts : Prompts}.

(** One call of the service: the request is recorded and the reply decides
    between a return and an exception. *)
Lemma ChatCompletion_create_run (svc : Service) (req : ChatCompletion.request) (w : World) :
  calls (snd (ChatCompletion_create req w)) = calls w ++ [req]
  /\ session (snd (ChatCompletion_create req w)) = session w
  /\ stdout (snd (ChatCompletion_create req w)) = stdout w
  /\ page (snd (ChatCompletion_create req w)) = page w
  /\ fst (ChatCompletion_create req w) =
     match respond (length (calls w)) req with
     | ChatCompletion.Completion c => Return c
     | ChatCompletion.Failure e => Raise (Exception (OpenAIError e))
     end.
Proof.
  unfold ChatCompletion_create.
  destruct (respond (length (calls w)) req); simpl; auto.
Qed.

(** C10.  [chat] returns a [str] whatever the service does: the content of
    the completion, or, when the call fails with the text [e], the sentence
    of ai_dietitian.py 120, which begins with the apology and ends with
    [e].  A completion whose content is that very text gives the caller the
    same result in the same world, so the two cannot be told apart. *)
Theorem chat_never_raises (svc : Service) (self : AIDietitian) (msg : text)
    (history : list Message) (w : World) :
  (exists reply : text, fst (chat self msg history w) = Return reply)
  /\ calls (snd (chat self msg history w)) = calls w ++ [chat_request self msg history]
  /\ (forall c,
        respond (length (calls w)) (chat_request self msg history)
          = ChatCompletion.Completion c ->
        fst (chat self msg history w) = Return c)
  /\ (forall e,
        respond (length (calls w)) (chat_request self msg history)
          = ChatCompletion.Failure e ->
        exists reply : text,
          fst (chat self msg history w) = Return reply
          /\ reply
             = lit "I apologize, but I'm experiencing technical difficulties. Please try again. Error: "
               ++ e
          /\ startswith (lit "I apologize") reply = true
          /\ endswith e reply = true
          /\ chat (svc := always (ChatCompletion.Completion reply)) self msg history w
             = chat (svc := svc) self msg history w).
Proof.
  unfold chat, try_except, ChatCompletion_create.
  destruct (respond (length (calls w)) (chat_request self msg history)) as [c|e] eqn:E;
    simpl.
  - split; [now exists c|split; [reflexivity|split]].
    + now intros c' [= ->].
    + discriminate.
  - split; [now exists (apology ++ e)|split; [reflexivity|split]].
    + discriminate.
    + intros e' [= <-].
      exists (apology ++ e).
      split; [reflexivity|split; [reflexivity|split; [reflexivity|split]]].
      * apply endswith_app.
      * reflexivity.
Qed.

(** The attempt of [extract_user_profile] returns exactly when the reply,
    cleaned, decodes to a value the model accepts. *)
Lemma extract_attempt_returns (svc : Service) (self : AIDietitian)
    (history : list Message) (w : World) (p : UserProfile) :
  fst (extract_attempt self history w) = Return p <->
  exists raw data,
    respond (length (calls w)) (extraction_request self history)
      = ChatCompletion.Completion raw
    /\ json_loads (sanitize raw) = Some data
    /\ construct UserProfile_init data = inr p.
Proof.
  unfold extract_attempt, bind, ChatCompletion_create, loads, new, ret, raise.
  destruct (respond _ _) as [raw|e]; simpl.
  - destruct (json_loads (sanitize raw)) as [data|] eqn:Ed; simpl.
    + destruct (construct UserProfile_init data) as [e|a] eqn:Ec; simpl.
      * split; [discriminate|].
        intros (raw' & data' & [= <-] & Hd & Hc); congruence.
      * split.
        -- intros [= ->]; now exists raw, data.
        -- intros (raw' & data' & [= <-] & Hd & Hc); congruence.
    + split; [discriminate|].
      intros (raw' & data' & [= <-] & Hd & _); congruence.
  - split; [discriminate|].
    intros (raw' & data' & Hr & _); discriminate.
Qed.

Lemma plan_attempt_returns (svc : Service) (self : AIDietitian)
    (profile : UserProfile) (w : World) (p : WeeklyDietPlan) :
  fst (plan_attempt self profile w) = Return p <->
  exists raw data,
    respond (length (calls w)) (plan_request self profile)
      = ChatCompletion.Completion raw
    /\ json_loads (sanitize raw) = Some data
    /\ construct WeeklyDietPlan_init data = inr p.
Proof.
  unfold plan_attempt, bind, ChatCompletion_create, loads, new, ret, raise.
  destruct (respond _ _) as [raw|e]; simpl.
  - destruct (json_loads (sanitize raw)) as [data|] eqn:Ed; simpl.
    + destruct (construct WeeklyDietPlan_init data) as [e|a] eqn:Ec; simpl.
      * split; [discriminate|].
        intros (raw' & data' & [= <-] & Hd & Hc); congruence.
      * split.
        -- intros [= ->]; now exists raw, data.
        -- intros (raw' & data' & [= <-] & Hd & Hc); congruence.
    + split; [discriminate|].
      intros (raw' & data' & [= <-] & Hd & _); congruence.
  - split; [discriminate|].
    intros (raw' & data' & Hr & _); discriminate.
Qed.

(** Neither attempt reruns the script, touches the session or the page, or
    prints; each calls the service once. *)
Lemma extract_attempt_effects (svc : Service) (self : AIDietitian)
    (history : list Message) (w : World) :
  fst (extract_attempt self history w) <> Raise RerunException
  /\ session (snd (extract_attempt self history w)) = session w
  /\ stdout (snd (extract_attempt self history w)) = stdout w
  /\ page (snd (extract_attempt self history w)) = page w
  /\ calls (snd (extract_attempt self history w))
     = calls w ++ [extraction_request self history].
Proof.
  unfold extract_attempt, bind, ChatCompletion_create, loads, new, ret, raise.
  destruct (respond _ _) as [raw|e]; simpl; [|repeat split; discriminate].
  destruct (json_loads (sanitize raw)) as [data|]; simpl; [|repeat split; discriminate].
  destruct (construct UserProfile_init data); simpl; repeat split; discriminate.
Qed.

Lemma plan_attempt_effects (svc : Service) (self : AIDietitian)
    (profile : UserProfile) (w : World) :
  fst (plan_attempt self profile w) <> Raise RerunException
  /\ session (snd (plan_attempt self profile w)) = session w
  /\ stdout (snd (plan_attempt self profile w)) = stdout w
  /\ page (snd (plan_attempt self profile w)) = page w
  /\ calls (snd (plan_attempt self profile w)) = calls w ++ [plan_request self profile].
Proof.
  unfold plan_attempt, bind, ChatCompletion_create, loads, new, ret, raise.
  destruct (respond _ _) as [raw|e]; simpl; [|repeat split; discriminate].
  destruct (json_loads (sanitize raw)) as [data|]; simpl; [|repeat split; discriminate].
  destruct (construct WeeklyDietPlan_init data); simpl; repeat split; discriminate.
Qed.

End DietitianFacts.

Section PipelineFacts.
Context {py : Builtins} {prompts : Prompts}.

(** C4, as the code has it.  [extract_user_profile] never raises: it
    returns the validated profile, or it returns [None] after printing the
    reason; the value returned on failure is the same for every reason. *)
Theorem extract_user_profile_total (svc : Service) (self : AIDietitian)
    (history : list Message) (w : World) :
  (exists p raw data,
      fst (extract_user_profile self history w) = Return (Some p)
      /\ respond (length (calls w)) (extraction_request self history)
         = ChatCompletion.Completion raw
      /\ json_loads (sanitize raw) = Some data
      /\ construct UserProfile_init data = inr p
      /\ stdout (snd (extract_user_profile self history w)) = stdout w)
  \/ (exists e,
      fst (extract_user_profile self history w) = Return None
      /\ fst (extract_attempt self history w) = Raise (Exception e)
      /\ stdout (snd (extract_user_profile self history w))
         = stdout w ++ [lit "Error extracting user profile: " ++ str_exn e]).
Proof.
  pose proof (extract_attempt_effects svc self history w) as (Hrerun & _ & Hout & _).
  pose proof (extract_attempt_returns svc self history w) as Hret.
  unfold extract_user_profile, try_except, bind, print, ret.
  destruct (extract_attempt self history w) as [[p|[e|]] w1]; simpl in *.
  - left. destruct (proj1 (Hret p) eq_refl) as (raw & data & H1 & H2 & H3).
    now exists p, raw, data.
  - right. exists e. now rewrite Hout.
  - now contradiction Hrerun.
Qed.

(** The same for [create_diet_plan]. *)
Lemma create_diet_plan_total (svc : Service) (self : AIDietitian)
    (profile : UserProfile) (w : World) :
  (exists p raw data,
      fst (create_diet_plan self profile w) = Return (Some p)
      /\ respond (length (calls w)) (plan_request self profile)
         = ChatCompletion.Completion raw
      /\ json_loads (sanitize raw) = Some data
      /\ construct WeeklyDietPlan_init data = inr p
      /\ stdout (snd (create_diet_plan self profile w)) = stdout w)
  \/ (exists e,
      fst (create_diet_plan self profile w) = Return None
      /\ fst (plan_attempt self profile w) = Raise (Exception e)
      /\ stdout (snd (create_diet_plan self profile w))
         = stdout w ++ [lit "Error creating diet plan: " ++ str_exn e]).
Proof.
  pose proof (plan_attempt_effects svc self profile w) as (Hrerun & _ & Hout & _).
  pose proof (plan_attempt_returns svc self profile w) as Hret.
  unfold create_diet_plan, try_except, bind, print, ret.
  destruct (plan_attempt self profile w) as [[p|[e|]] w1]; simpl in *.
  - left. destruct (proj1 (Hret p) eq_refl) as (raw & data & H1 & H2 & H3).
    now exists p, raw, data.
  - right. exists e. now rewrite Hout.
  - now contradiction Hrerun.
Qed.

(** Neither method touches the session or the page, and each calls the
    service exactly once. *)
Lemma extract_user_profile_effects (svc : Service) (self : AIDietitian)
    (history : list Message) (w : World) :
  session (snd (extract_user_profile self history w)) = session w
  /\ page (snd (extract_user_profile self history w)) = page w
  /\ calls (snd (extract_user_profile self history w))
     = calls w ++ [extraction_request self history].
Proof.
  pose proof (extract_attempt_effects svc self history w) as (_ & Hs & _ & Hp & Hc).
  unfold extract_user_profile, try_except, bind, print, ret.
  destruct (extract_attempt self history w) as [[p|[e|]] w1]; simpl in *; auto.
Qed.

Lemma create_diet_plan_effects (svc : Service) (self : AIDietitian)
    (profile : UserProfile) (w : World) :
  session (snd (create_diet_plan self profile w)) = session w
  /\ page (snd (create_diet_plan self profile w)) = page w
  /\ calls (snd (create_diet_plan self profile w)) = calls w ++ [plan_request self profile].
Proof.
  pose proof (plan_attempt_effects svc self profile w) as (_ & Hs & _ & Hp & Hc).
  unfold create_diet_plan, try_except, bind, print, ret.
  destruct (plan_attempt self profile w) as [[p|[e|]] w1]; simpl in *; auto.
Qed.

End PipelineFacts.

(** C4, as the specification has it, fails on the code.  A reply that is
    not JSON and a reply [{}] that misses every field fail for different
    reasons, and [extract_user_profile] returns the same [None] for both:
    no reason can be read off the value returned. *)
Lemma extraction_failure_carries_no_reason :
  fst (extract_attempt (py := Sample.runtime) (prompts := Sample.prompts) (svc := Sample.replying (lit "not json"))
         Sample.dietitian Sample.conversation Sample.new_world)
  = Raise (Exception JSONDecodeError)
  /\ fst (extract_user_profile (py := Sample.runtime) (prompts := Sample.prompts)
            (svc := Sample.replying (lit "not json"))
            Sample.dietitian Sample.conversation Sample.new_world)
     = Return None
  /\ fst (extract_attempt (py := Sample.runtime) (prompts := Sample.prompts) (svc := Sample.replying (lit "{}"))
            Sample.dietitian Sample.conversation Sample.new_world)
     = Raise (Exception (ValidationError Sample.missing_fields))
  /\ fst (extract_user_profile (py := Sample.runtime) (prompts := Sample.prompts) (svc := Sample.replying (lit "{}"))
            Sample.dietitian Sample.conversation Sample.new_world)
     = Return None
  /\ ~ (exists reason_of : outcome (option UserProfile) -> PyException,
          reason_of
            (fst (extract_user_profile (py := Sample.runtime) (prompts := Sample.prompts)
                    (svc := Sample.replying (lit "not json"))
                    Sample.dietitian Sample.conversation Sample.new_world))
          = JSONDecodeError
          /\ reason_of
               (fst (extract_user_profile (py := Sample.runtime) (prompts := Sample.prompts)
                       (svc := Sample.replying (lit "{}"))
                       Sample.dietitian Sample.conversation Sample.new_world))
             = ValidationError Sample.missing_fields).
Proof.
  repeat split; try (vm_compute; reflexivity).
  intros (reason_of & H1 & H2).
  vm_compute in H1, H2; congruence.
Qed.

(** The failing service of the witness: every call ends in a timeout. *)
Lemma chat_never_raises_witness :
  fst (chat (py := Sample.runtime) (svc := Sample.failing (lit "Request timed out"))
         Sample.dietitian (lit "Hello") Sample.conversation Sample.new_world)
  = Return
      (lit "I apologize, but I'm experiencing technical difficulties. Please try again. Error: Request timed out")
  /\ chat (py := Sample.runtime)
       (svc := always
                 (ChatCompletion.Completion
                    (lit "I apologize, but I'm experiencing technical difficulties. Please try again. Error: Request timed out")))
       Sample.dietitian (lit "Hello") Sample.conversation Sample.new_world
     = chat (py := Sample.runtime) (svc := Sample.failing (lit "Request timed out"))
         Sample.dietitian (lit "Hello") Sample.conversation Sample.new_world.
Proof.
  destruct (chat_never_raises (py := Sample.runtime)
              (Sample.failing (lit "Request timed out"))
              Sample.dietitian (lit "Hello") Sample.conversation Sample.new_world)
    as (_ & _ & _ & H).
  destruct (H (lit "Request timed out") eq_refl) as (reply & H1 & -> & _ & _ & H3).
  split; [exact H1|exact H3].
Defined.

(** ** Validation *)

Section ValidationFacts.
Context {py : Builtins}.

Lemma ap_valid {A B} (rf : Validated (A -> B)) (ra : Validated A) (b : B) :
  rf <*> ra = Valid b -> exists f a, rf = Valid f /\ ra = Valid a /\ b = f a.
Proof.
  destruct rf as [f|es|e], ra as [a|es'|e']; simpl; try discriminate.
  intros [= <-]; now exists f, a.
Qed.

Lemma at_loc_valid {A} (i : LocItem) (r : Validated A) (a : A) :
  at_loc i r = Valid a -> r = Valid a.
Proof. destruct r; simpl; congruence. Qed.

Lemma not_none_valid {A} (f : json -> Validated A) (v : json) (a : A) :
  not_none f v = Valid a -> v <> JNull /\ f v = Valid a.
Proof.
  destruct v; simpl; try discriminate; intros H; split; try exact H; discriminate.
Qed.

Lemma required_valid {A} (key : string) (f : json -> Validated A) (data : dict json) (a : A) :
  required key f data = Valid a -> supplied key f data a.
Proof.
  unfold required, supplied.
  destruct (dict_get (lit key) data) as [v|]; [|discriminate].
  intros H; apply at_loc_valid, not_none_valid in H; now exists v.
Qed.

Lemma required_absent {A} (key : string) (f : json -> Validated A) (data : dict json) :
  dict_get (lit key) data = None -> forall a, required key f data <> Valid a.
Proof. unfold required; intros ->; discriminate. Qed.

Lemma optional_absent {A} (key : string) (f : json -> Validated A) (data : dict json) :
  dict_get (lit key) data = None -> optional key f data = Valid None.
Proof. unfold optional; now intros ->. Qed.

Lemma enum_member_valid {E} (members : list E) (value : E -> text) (v : json) (m : E) :
  enum_member_validator members value v = Valid m ->
  v = JStr (value m) /\ In m members.
Proof.
  destruct v; simpl; try discriminate.
  destruct (find _ members) as [m'|] eqn:F; [|discriminate].
  intros [= <-]; apply find_some in F as [Hin Heq].
  apply text_eqb_eq in Heq; now subst.
Qed.

Lemma validate_items_valid {A} (g : json -> Validated A) (items : list json) :
  forall (i : nat) (l : list A),
    validate_items g i items = Valid l -> Forall2 (fun x a => g x = Valid a) items l.
Proof.
  induction items as [|x items IH]; cbn [validate_items]; intros i l H.
  - injection H as <-; constructor.
  - apply ap_valid in H as (f & tl & Hf & Htl & ->).
    apply ap_valid in Hf as (c & a & Hc & Ha & ->).
    injection Hc as <-.
    constructor; [now apply at_loc_valid in Ha|eauto].
Qed.

Lemma list_of_valid {A} (f : json -> Validated A) (v : json) (l : list A) :
  list_of f v = Valid l ->
  exists items, v = JList items /\ Forall2 (fun x a => x <> JNull /\ f x = Valid a) items l.
Proof.
  destruct v; simpl; try discriminate.
  intros H; apply validate_items_valid in H.
  eexists; split; [reflexivity|].
  induction H; constructor; auto using not_none_valid.
Qed.

Lemma model_validator_valid {A} (init : dict json -> Validated A) (v : json) (a : A) :
  model_validator init v = Valid a ->
  exists kw, as_keywords v = Valid kw /\ init kw = Valid a.
Proof.
  unfold model_validator; destruct (as_keywords v) as [kw| |]; try discriminate.
  intros H; now exists kw.
Qed.

(** A [dict] to which a new key is assigned grows at its end. *)
Lemma dict_set_new {V} (k : text) (v : V) (d : dict V) :
  ~ In k (map fst d) -> dict_set k v d = d ++ [(k, v)].
Proof.
  induction d as [|[k' v'] d IH]; simpl; intros Hk; [reflexivity|].
  destruct (text_eqb k k') eqn:E.
  - apply text_eqb_eq in E; subst; tauto.
  - rewrite IH; tauto.
Qed.

(** The items of a [dict] whose keys are distinct, validated as a mapping of
    anything, are assigned to the result in their order. *)
Lemma validate_mapping_any (d acc : dict json) (errs : list ErrorWrapper) (r : dict json) :
  NoDup (map fst (acc ++ d)) ->
  validate_mapping any_validator (map (fun kv => (JStr (fst kv), snd kv)) d) acc errs
    = Valid r ->
  r = acc ++ d.
Proof.
  revert acc; induction d as [|[k v] d IH]; simpl; intros acc Hnd H.
  - destruct errs; [|discriminate]. injection H as <-; now rewrite app_nil_r.
  - assert (Hk : ~ In k (map fst acc)).
    { rewrite map_app in Hnd; simpl in Hnd.
      apply NoDup_remove_2 in Hnd; rewrite in_app_iff in Hnd; tauto. }
    rewrite (dict_set_new _ _ _ Hk) in H.
    apply IH in H; [now rewrite <- app_assoc in H|now rewrite <- app_assoc].
Qed.

Lemma dict_of_str_any (d r : dict json) :
  NoDup (map fst d) -> dict_of_str any_validator (JDict d) = Valid r -> r = d.
Proof.
  unfold dict_of_str; simpl; intros Hnd H.
  now apply validate_mapping_any in H.
Qed.

(** [int_validator] and [float_validator] take a number of any sign. *)
Lemma int_validator_int (n : Z) : int_validator (JInt n) = Valid n.
Proof. reflexivity. Qed.

Lemma float_validator_float (x : float) : float_validator (JFloat x) = Valid x.
Proof. reflexivity. Qed.

End ValidationFacts.

(** Takes an equation [... <*> r1 <*> ... <*> rn = Valid x] apart into one
    equation for each [ri]. *)
Ltac split_fields H :=
  lazymatch type of H with
  | ap _ _ = Valid _ =>
      let f := fresh "f" in
      let a := fresh "a" in
      let Hf := fresh "Hf" in
      let Ha := fresh "Ha" in
      apply ap_valid in H as (f & a & Hf & Ha & ->); split_fields Hf
  | Valid _ = Valid _ => injection H as <-
  end.

Section ModelFacts.
Context {py : Builtins}.

(** Every field of an accepted profile was validated from the arguments. *)
Lemma UserProfile_init_valid (data : dict json) (p : UserProfile) :
  UserProfile_init data = Valid p ->
  required "age" int_validator data = Valid (age p)
  /\ required "height_cm" float_validator data = Valid (height_cm p)
  /\ required "weight_kg" float_validator data = Valid (weight_kg p)
  /\ optional "target_weight_kg" float_validator data = Valid (target_weight_kg p)
  /\ required "activity_level"
       (enum_member_validator ActivityLevel_members ActivityLevel_value) data
     = Valid (activity_level p)
  /\ required "goal" (enum_member_validator Goal_members Goal_value) data = Valid (goal p)
  /\ required "dietary_restrictions"
       (list_of (enum_member_validator DietaryRestriction_members DietaryRestriction_value))
       data
     = Valid (dietary_restrictions p)
  /\ required "allergies" (list_of str_validator) data = Valid (allergies p)
  /\ required "preferences" (list_of str_validator) data = Valid (preferences p)
  /\ required "dislikes" (list_of str_validator) data = Valid (dislikes p)
  /\ optional "budget_constraint" str_validator data = Valid (budget_constraint p)
  /\ required "cultural_preferences" (list_of str_validator) data
     = Valid (cultural_preferences p).
Proof.
  unfold UserProfile_init; intros H; split_fields H; simpl.
  repeat split; assumption.
Qed.

Lemma DailyPlan_init_valid (data : dict json) (d : DailyPlan) :
  DailyPlan_init data = Valid d ->
  required "total_calories" int_validator data = Valid (total_calories d)
  /\ required "total_protein" float_validator data = Valid (total_protein d)
  /\ required "total_carbs" float_validator data = Valid (total_carbs d)
  /\ required "total_fat" float_validator data = Valid (total_fat d).
Proof.
  unfold DailyPlan_init; intros H; split_fields H; simpl.
  repeat split; assumption.
Qed.

Lemma WeeklyDietPlan_init_valid (data : dict json) (p : WeeklyDietPlan) :
  WeeklyDietPlan_init data = Valid p ->
  required "daily_plans" (list_of (model_validator DailyPlan_init)) data
    = Valid (daily_plans p)
  /\ required "weekly_summary" (dict_of_str any_validator) data = Valid (weekly_summary p).
Proof.
  unfold WeeklyDietPlan_init; intros H; split_fields H; simpl.
  repeat split; assumption.
Qed.

Lemma construct_returns {A} (init : dict json -> Validated A) (v : json) (a : A) :
  construct init v = inr a -> exists data, v = JDict data /\ init data = Valid a.
Proof.
  destruct v; simpl; try discriminate.
  destruct (init d) eqn:E; try discriminate.
  intros [= <-]; now exists d.
Qed.

End ModelFacts.

(** ** What the pipeline accepts *)

Section AcceptanceFacts.
Context {py : Builtins} {prompts : Prompts}.

Lemma optional_valid_some {A} (key : string) (f : json -> Validated A) (data : dict json)
    (x : A) :
  optional key f data = Valid (Some x) -> supplied key f data x.
Proof.
  unfold optional, supplied.
  destruct (dict_get (lit key) data) as [v|]; [|discriminate].
  intros H; apply at_loc_valid in H.
  exists v; split; [reflexivity|].
  destruct v; simpl in H; try discriminate;
    (split; [discriminate|]);
    match type of H with vmap Some ?r = _ => destruct r; simpl in H; congruence end.
Qed.

(** A profile is returned only for a reply that decodes to an object the
    model accepts. *)
Lemma extract_user_profile_returns (svc : Service) (self : AIDietitian)
    (history : list Message) (w : World) (p : UserProfile) :
  fst (extract_user_profile self history w) = Return (Some p) ->
  exists raw data,
    respond (length (calls w)) (extraction_request self history)
      = ChatCompletion.Completion raw
    /\ json_loads (sanitize raw) = Some (JDict data)
    /\ UserProfile_init data = Valid p.
Proof.
  pose proof (extract_attempt_returns svc self history w) as Hret.
  unfold extract_user_profile, try_except, bind, print, ret.
  destruct (extract_attempt self history w) as [[q|[e|]] w1]; simpl in *;
    try discriminate.
  intros [= ->].
  destruct (proj1 (Hret p) eq_refl) as (raw & v & H1 & H2 & H3).
  apply construct_returns in H3 as (data & -> & H3).
  now exists raw, data.
Qed.

(** A reply the model does not accept gives [None]. *)
Lemma extract_user_profile_rejects (svc : Service) (self : AIDietitian)
    (history : list Message) (w : World) (raw : text) (data : dict json) :
  respond (length (calls w)) (extraction_request self history)
    = ChatCompletion.Completion raw ->
  json_loads (sanitize raw) = Some (JDict data) ->
  (forall p, UserProfile_init data <> Valid p) ->
  fst (extract_user_profile self history w) = Return None.
Proof.
  intros Hr Hd Hno.
  unfold extract_user_profile, try_except, extract_attempt, bind, ChatCompletion_create,
    loads, new, ret, raise, print.
  rewrite Hr; simpl; rewrite Hd; simpl.
  destruct (UserProfile_init data) as [p| |]; simpl; try reflexivity.
  now contradiction (Hno p).
Qed.

Lemma create_diet_plan_returns (svc : Service) (self : AIDietitian)
    (profile : UserProfile) (w : World) (p : WeeklyDietPlan) :
  fst (create_diet_plan self profile w) = Return (Some p) ->
  exists raw data,
    respond (length (calls w)) (plan_request self profile)
      = ChatCompletion.Completion raw
    /\ json_loads (sanitize raw) = Some (JDict data)
    /\ WeeklyDietPlan_init data = Valid p.
Proof.
  pose proof (plan_attempt_returns svc self profile w) as Hret.
  unfold create_diet_plan, try_except, bind, print, ret.
  destruct (plan_attempt self profile w) as [[q|[e|]] w1]; simpl in *;
    try discriminate.
  intros [= ->].
  destruct (proj1 (Hret p) eq_refl) as (raw & v & H1 & H2 & H3).
  apply construct_returns in H3 as (data & -> & H3).
  now exists raw, data.
Qed.

(** C5, as the code has it.  A list-typed field has no default: when the
    reply omits one, validation fails and the extraction returns [None].
    The two [Optional] fields need not be there: a profile returned for a
    reply that omits one has [None] in its place. *)
Theorem absent_profile_fields (svc : Service) (self : AIDietitian)
    (history : list Message) (w : World) (raw : text) (data : dict json) :
  respond (length (calls w)) (extraction_request self history)
    = ChatCompletion.Completion raw ->
  json_loads (sanitize raw) = Some (JDict data) ->
  (forall key, In key list_typed_fields -> dict_get (lit key) data = None ->
     fst (extract_user_profile self history w) = Return None)
  /\ (forall p, fst (extract_user_profile self history w) = Return (Some p) ->
        (dict_get (lit "target_weight_kg") data = None -> target_weight_kg p = None)
        /\ (dict_get (lit "budget_constraint") data = None -> budget_constraint p = None)).
Proof.
  intros Hr Hd; split.
  - intros key Hkey Habsent.
    apply (extract_user_profile_rejects svc self history w Hr Hd).
    intros p Hp.
    apply UserProfile_init_valid in Hp
      as (_ & _ & _ & _ & _ & _ & Hdr & Hal & Hpr & Hdi & _ & Hcp).
    simpl in Hkey.
    destruct Hkey as [<-|[<-|[<-|[<-|[<-|[]]]]]];
      eapply required_absent; eauto.
  - intros p Hp.
    apply extract_user_profile_returns in Hp as (raw' & data' & Hr' & Hd' & Hp).
    rewrite Hr in Hr'; injection Hr' as <-.
    rewrite Hd in Hd'; injection Hd' as <-.
    apply UserProfile_init_valid in Hp
      as (_ & _ & _ & Htw & _ & _ & _ & _ & _ & _ & Hbc & _).
    split; intros Habsent.
    + rewrite (optional_absent _ _ _ Habsent) in Htw; congruence.
    + rewrite (optional_absent _ _ _ Habsent) in Hbc; congruence.
Qed.

(** A list of enumeration members was validated from the list of their
    values. *)
Lemma enum_items_valid {E} (members : list E) (value : E -> text) (items : list json)
    (rs : list E) :
  Forall2 (fun x r => x <> JNull /\ enum_member_validator members value x = Valid r)
          items rs ->
  items = map (fun r => JStr (value r)) rs
  /\ Forall (fun r => In (value r) (map value members)) rs.
Proof.
  induction 1 as [|x r items rs [_ Hx] _ [IH1 IH2]]; [now split|].
  apply enum_member_valid in Hx as [-> Hin]; simpl; split.
  - now rewrite IH1.
  - constructor; [now apply in_map|exact IH2].
Qed.

(** C7, as the code has it.  A profile is returned only for a reply whose
    [activity_level], [goal] and [dietary_restrictions] are values of their
    enumerations, and the profile has exactly those.  Its numbers are the
    numbers of the reply as [int] and [float] read them: no sign is
    required of them. *)
Theorem accepted_profile_enumerations (svc : Service) (self : AIDietitian)
    (history : list Message) (w : World) (p : UserProfile) :
  fst (extract_user_profile self history w) = Return (Some p) ->
  exists raw data,
    respond (length (calls w)) (extraction_request self history)
      = ChatCompletion.Completion raw
    /\ json_loads (sanitize raw) = Some (JDict data)
    /\ dict_get (lit "activity_level") data
       = Some (JStr (ActivityLevel_value (activity_level p)))
    /\ In (ActivityLevel_value (activity_level p))
          (map ActivityLevel_value ActivityLevel_members)
    /\ dict_get (lit "goal") data = Some (JStr (Goal_value (goal p)))
    /\ In (Goal_value (goal p)) (map Goal_value Goal_members)
    /\ dict_get (lit "dietary_restrictions") data
       = Some (JList (map (fun r => JStr (DietaryRestriction_value r))
                          (dietary_restrictions p)))
    /\ Forall (fun r => In (DietaryRestriction_value r)
                           (map DietaryRestriction_value DietaryRestriction_members))
              (dietary_restrictions p)
    /\ supplied "age" int_validator data (age p)
    /\ supplied "height_cm" float_validator data (height_cm p)
    /\ supplied "weight_kg" float_validator data (weight_kg p)
    /\ (forall x, target_weight_kg p = Some x ->
          supplied "target_weight_kg" float_validator data x).
Proof.
  intros Hp.
  apply extract_user_profile_returns in Hp as (raw & data & Hr & Hd & Hp).
  exists raw, data.
  apply UserProfile_init_valid in Hp
    as (Hage & Hh & Hw & Htw & Hal & Hgo & Hdr & _).
  apply required_valid in Hage, Hh, Hw, Hal, Hgo, Hdr.
  destruct Hal as (v1 & Hv1 & _ & Hal); apply enum_member_valid in Hal as [-> Hal].
  destruct Hgo as (v2 & Hv2 & _ & Hgo); apply enum_member_valid in Hgo as [-> Hgo].
  destruct Hdr as (v3 & Hv3 & _ & Hdr); apply list_of_valid in Hdr as (items & -> & Hdr).
  apply enum_items_valid in Hdr as Hitems.
  destruct Hitems as [-> Hall].
  repeat split; try assumption; try (now apply in_map).
  intros x Hx; rewrite Hx in Htw; now apply optional_valid_some.
Qed.

End AcceptanceFacts.

Section PlanFacts.
Context {py : Builtins} {prompts : Prompts}.

(** The days of an accepted plan were validated one by one from the
    [daily_plans] list of the arguments. *)
Lemma plan_days_valid (data : dict json) (plan : WeeklyDietPlan) :
  WeeklyDietPlan_init data = Valid plan ->
  exists days,
    dict_get (lit "daily_plans") data = Some (JList days)
    /\ Forall2 (fun doc d => exists kw, as_keywords doc = Valid kw
                                        /\ DailyPlan_init kw = Valid d)
               days (daily_plans plan).
Proof.
  intros H; apply WeeklyDietPlan_init_valid in H as [H _].
  apply required_valid in H as (v & Hv & _ & H).
  apply list_of_valid in H as (days & -> & H).
  exists days; split; [exact Hv|].
  eapply Forall2_impl; [|exact H].
  intros doc d [_ Hd]; now apply model_validator_valid.
Qed.

(** C1, as the code has it.  Nothing recomputes the totals of a day: in
    the plan returned, the four totals of each day are the values the reply
    gives under [total_calories], [total_protein], [total_carbs] and
    [total_fat] of that day, read as [int] and [float]. *)
Theorem daily_totals_as_supplied (svc : Service) (self : AIDietitian)
    (profile : UserProfile) (w : World) (plan : WeeklyDietPlan) :
  fst (create_diet_plan self profile w) = Return (Some plan) ->
  exists raw data days,
    respond (length (calls w)) (plan_request self profile)
      = ChatCompletion.Completion raw
    /\ json_loads (sanitize raw) = Some (JDict data)
    /\ dict_get (lit "daily_plans") data = Some (JList days)
    /\ Forall2 (fun doc d =>
                  exists kw,
                    as_keywords doc = Valid kw
                    /\ supplied "total_calories" int_validator kw (total_calories d)
                    /\ supplied "total_protein" float_validator kw (total_protein d)
                    /\ supplied "total_carbs" float_validator kw (total_carbs d)
                    /\ supplied "total_fat" float_validator kw (total_fat d))
               days (daily_plans plan).
Proof.
  intros H; apply create_diet_plan_returns in H as (raw & data & Hr & Hd & H).
  apply plan_days_valid in H as (days & Hdays & H).
  exists raw, data, days; repeat split; try assumption.
  eapply Forall2_impl; [|exact H].
  intros doc d (kw & Hkw & Hinit); exists kw; split; [exact Hkw|].
  apply DailyPlan_init_valid in Hinit as (H1 & H2 & H3 & H4).
  repeat split; now apply required_valid.
Qed.

(** C6, as the code has it.  The model puts no bound on [daily_plans]: the
    plan returned has as many days as the list of the reply has items. *)
Theorem daily_plans_as_supplied (svc : Service) (self : AIDietitian)
    (profile : UserProfile) (w : World) (plan : WeeklyDietPlan) :
  fst (create_diet_plan self profile w) = Return (Some plan) ->
  exists raw data days,
    respond (length (calls w)) (plan_request self profile)
      = ChatCompletion.Completion raw
    /\ json_loads (sanitize raw) = Some (JDict data)
    /\ dict_get (lit "daily_plans") data = Some (JList days)
    /\ length (daily_plans plan) = length days.
Proof.
  intros H; apply create_diet_plan_returns in H as (raw & data & Hr & Hd & H).
  apply plan_days_valid in H as (days & Hdays & H).
  exists raw, data, days; repeat split; try assumption.
  symmetry; eapply Forall2_length; exact H.
Qed.

(** C2, as the code has it.  [weekly_summary] is a mapping of anything:
    the plan returned has the mapping of the reply, key by key and value by
    value, whatever the daily totals are. *)
Theorem weekly_summary_as_supplied (svc : Service) (self : AIDietitian)
    (profile : UserProfile) (w : World) (plan : WeeklyDietPlan) :
  fst (create_diet_plan self profile w) = Return (Some plan) ->
  exists raw data summary,
    respond (length (calls w)) (plan_request self profile)
      = ChatCompletion.Completion raw
    /\ json_loads (sanitize raw) = Some (JDict data)
    /\ dict_get (lit "weekly_summary") data = Some summary
    /\ dict_of_str any_validator summary = Valid (weekly_summary plan)
    /\ (forall d, summary = JDict d -> NoDup (map fst d) -> weekly_summary plan = d).
Proof.
  intros H; apply create_diet_plan_returns in H as (raw & data & Hr & Hd & H).
  apply WeeklyDietPlan_init_valid in H as [_ H].
  apply required_valid in H as (summary & Hs & _ & H).
  exists raw, data, summary; repeat split; try assumption.
  intros d -> Hnd; now apply dict_of_str_any.
Qed.

End PlanFacts.

(** ** The sample replies through the pipeline *)

(** The sample runtime decodes a sample document sent in a fenced block:
    the cleaning leaves the text of the document between two line breaks,
    which [json.loads] skips. *)
Lemma skip_whitespace_head (a : codepoint) (s : text) :
  Sample.json_whitespace a = false -> Sample.skip_whitespace (a :: s) = a :: s.
Proof. intros H; simpl; now rewrite H. Qed.

Lemma sample_trim (a b : codepoint) (mid : text) :
  Sample.json_whitespace a = false ->
  Sample.json_whitespace b = false ->
  rev (Sample.skip_whitespace
         (rev (Sample.skip_whitespace ([10%N] ++ (a :: mid ++ [b]) ++ [10%N]))))
  = a :: mid ++ [b].
Proof.
  intros Ha Hb.
  change ([10%N] ++ (a :: mid ++ [b]) ++ [10%N]) with (10%N :: a :: (mid ++ [b]) ++ [10%N]).
  change (Sample.skip_whitespace (10%N :: a :: (mid ++ [b]) ++ [10%N]))
    with (Sample.skip_whitespace (a :: (mid ++ [b]) ++ [10%N])).
  rewrite skip_whitespace_head by exact Ha.
  replace (rev (a :: (mid ++ [b]) ++ [10%N])) with (10%N :: b :: rev mid ++ [a])
    by (simpl; rewrite !rev_app_distr; reflexivity).
  change (Sample.skip_whitespace (10%N :: b :: rev mid ++ [a]))
    with (Sample.skip_whitespace (b :: rev mid ++ [a])).
  rewrite skip_whitespace_head by exact Hb.
  simpl; rewrite rev_app_distr, rev_involutive; reflexivity.
Qed.

Lemma fenced_decodes (d : dict json) :
  find (fun v => text_eqb (Sample.compact v) (Sample.compact (JDict d))) Sample.documents
  = Some (JDict d) ->
  json_loads (Builtins := Sample.runtime) (sanitize (Sample.fenced (JDict d)))
  = Some (JDict d).
Proof.
  intros H; unfold Sample.fenced.
  replace (fence_json ++ [10%N] ++ Sample.compact (JDict d) ++ [10%N] ++ fence)
    with (fence_json ++ ([10%N] ++ Sample.compact (JDict d) ++ [10%N]) ++ fence)
    by (rewrite <- !app_assoc; reflexivity).
  rewrite sanitize_json_fence.
  cbn [json_loads Sample.runtime].
  change (Sample.compact (JDict d))
    with (123%N :: Sample.join (lit ",")
                     (map (fun kv => match kv with
                                     | (k, x) => Sample.quote ++ k ++ Sample.quote
                                                 ++ lit ":" ++ Sample.compact x
                                     end) d) ++ [125%N]) at 1.
  rewrite sample_trim by reflexivity.
  exact H.
Qed.

Section Accepts.
Context {py : Builtins} {prompts : Prompts}.

Lemma create_diet_plan_accepts (svc : Service) (self : AIDietitian) (profile : UserProfile)
    (w : World) (raw : text) (data : dict json) (plan : WeeklyDietPlan) :
  respond (length (calls w)) (plan_request self profile) = ChatCompletion.Completion raw ->
  json_loads (sanitize raw) = Some (JDict data) ->
  WeeklyDietPlan_init data = Valid plan ->
  fst (create_diet_plan self profile w) = Return (Some plan).
Proof.
  intros Hr Hd Hv.
  unfold create_diet_plan, try_except, plan_attempt, bind, ChatCompletion_create,
    loads, new, ret, raise, print, construct.
  rewrite Hr; cbn; rewrite Hd; cbn; rewrite Hv; reflexivity.
Qed.
End Accepts.

(** The run of [create_diet_plan] on the sample document [doc] sent in a
    fenced block. *)
Ltac sample_plan_run doc :=
  apply create_diet_plan_accepts with (raw := Sample.fenced (JDict doc)) (data := doc);
  [reflexivity|apply fenced_decodes; vm_compute; reflexivity|vm_compute; reflexivity].

(** Proves each part of a conjunction of closed equations by evaluation. *)
Ltac evaluate_each :=
  lazymatch goal with
  | |- _ /\ _ => refine (conj _ _); [vm_compute; reflexivity|evaluate_each]
  | |- _ => vm_compute; reflexivity
  end.

Lemma absent_profile_fields_witness :
  fst (Sample.extraction_of (JDict Sample.sarah_without_allergies)) = Return None
  /\ fst (Sample.extraction_of (JDict Sample.sarah_without_optionals))
     = Return (Some Sample.profile_without_optionals)
  /\ target_weight_kg Sample.profile_without_optionals = None
  /\ budget_constraint Sample.profile_without_optionals = None.
Proof.
  assert (Hd1 : json_loads (Builtins := Sample.runtime)
                  (sanitize (Sample.fenced (JDict Sample.sarah_without_allergies)))
                = Some (JDict Sample.sarah_without_allergies))
    by (vm_compute; reflexivity).
  assert (Hd2 : json_loads (Builtins := Sample.runtime)
                  (sanitize (Sample.fenced (JDict Sample.sarah_without_optionals)))
                = Some (JDict Sample.sarah_without_optionals))
    by (vm_compute; reflexivity).
  assert (Hrun : fst (Sample.extraction_of (JDict Sample.sarah_without_optionals))
                 = Return (Some Sample.profile_without_optionals))
    by (vm_compute; reflexivity).
  destruct (absent_profile_fields (py := Sample.runtime) (prompts := Sample.prompts)
              (Sample.replying (Sample.fenced (JDict Sample.sarah_without_allergies)))
              Sample.dietitian Sample.conversation Sample.new_world eq_refl Hd1)
    as [Hlist _].
  destruct (absent_profile_fields (py := Sample.runtime) (prompts := Sample.prompts)
              (Sample.replying (Sample.fenced (JDict Sample.sarah_without_optionals)))
              Sample.dietitian Sample.conversation Sample.new_world eq_refl Hd2)
    as [_ Hopt].
  destruct (Hopt _ Hrun) as [Htw Hbc].
  split; [|split; [exact Hrun|split; [exact (Htw eq_refl)|exact (Hbc eq_refl)]]].
  apply (Hlist "allergies"%string); [simpl; tauto|reflexivity].
Defined.

(** C5, as the specification has it, fails on the code: a reply with every
    field but [allergies] is rejected, with [allergies] reported missing,
    and no profile is returned. *)
Lemma absent_list_field_is_rejected :
  dict_get (lit "allergies") Sample.sarah_without_allergies = None
  /\ UserProfile_init (py := Sample.runtime) Sample.sarah_without_allergies
     = Invalid [{| loc := [LField (lit "allergies")]; kind := MissingError |}]
  /\ fst (Sample.extraction_of (JDict Sample.sarah_without_allergies)) = Return None
  /\ fst (Sample.extraction_of (JDict Sample.sarah))
     = Return (Some Sample.sarah_profile).
Proof. evaluate_each. Qed.

Lemma accepted_profile_enumerations_witness :
  fst (Sample.extraction_of (JDict Sample.sarah)) = Return (Some Sample.sarah_profile)
  /\ exists raw data,
       json_loads (Builtins := Sample.runtime) (sanitize raw) = Some (JDict data)
       /\ dict_get (lit "activity_level") data = Some (JStr (lit "sedentary"))
       /\ dict_get (lit "goal") data = Some (JStr (lit "weight_loss"))
       /\ dict_get (lit "dietary_restrictions") data = Some (JList [JStr (lit "none")])
       /\ supplied "age" (int_validator (py := Sample.runtime)) data 28%Z.
Proof.
  assert (Hrun : fst (Sample.extraction_of (JDict Sample.sarah))
                 = Return (Some Sample.sarah_profile))
    by (vm_compute; reflexivity).
  split; [exact Hrun|].
  destruct (accepted_profile_enumerations (py := Sample.runtime) (prompts := Sample.prompts)
              (Sample.replying (Sample.fenced (JDict Sample.sarah)))
              Sample.dietitian Sample.conversation Sample.new_world Hrun)
    as (raw & data & _ & Hd & Hal & _ & Hgo & _ & Hdr & _ & Hage & _).
  exists raw, data.
  split; [exact Hd|split; [exact Hal|split; [exact Hgo|split; [exact Hdr|exact Hage]]]].
Defined.

(** C7, as the specification has it, fails on the code: a reply with the
    age -5, the height 0, the weight -72 and the target weight -63 is
    accepted, and the profile returned has these numbers. *)
Lemma nonpositive_numbers_are_accepted :
  fst (Sample.extraction_of (JDict Sample.sarah_negative))
  = Return (Some Sample.negative_profile)
  /\ age Sample.negative_profile = (-5)%Z
  /\ (age Sample.negative_profile <= 0)%Z
  /\ PrimFloat.ltb 0 (height_cm Sample.negative_profile) = false
  /\ PrimFloat.ltb 0 (weight_kg Sample.negative_profile) = false
  /\ target_weight_kg Sample.negative_profile = Some (-63)%float.
Proof.
  refine (conj _ (conj _ (conj _ _))).
  - vm_compute; reflexivity.
  - vm_compute; reflexivity.
  - vm_compute; discriminate.
  - evaluate_each.
Qed.

Lemma daily_totals_as_supplied_witness :
  fst (Sample.plan_of_reply (JDict Sample.plan_one_day)) = Return (Some Sample.one_day)
  /\ exists raw data days,
       json_loads (Builtins := Sample.runtime) (sanitize raw) = Some (JDict data)
       /\ dict_get (lit "daily_plans") data = Some (JList days)
       /\ Forall2 (fun doc d =>
                     exists kw,
                       as_keywords (py := Sample.runtime) doc = Valid kw
                       /\ supplied "total_calories" (int_validator (py := Sample.runtime))
                            kw (total_calories d))
                  days (daily_plans Sample.one_day).
Proof.
  assert (Hrun : fst (Sample.plan_of_reply (JDict Sample.plan_one_day))
                 = Return (Some Sample.one_day))
    by (sample_plan_run Sample.plan_one_day).
  split; [exact Hrun|].
  destruct (daily_totals_as_supplied (py := Sample.runtime) (prompts := Sample.prompts)
              (Sample.replying (Sample.fenced (JDict Sample.plan_one_day)))
              Sample.dietitian Sample.sarah_profile Sample.new_world Hrun)
    as (raw & data & days & _ & Hd & Hdays & Hall).
  exists raw, data, days.
  split; [exact Hd|split; [exact Hdays|]].
  eapply Forall2_impl; [|exact Hall].
  intros doc d (kw & Hkw & Hc & _); exists kw; split; [exact Hkw|exact Hc].
Defined.

(** C1, as the specification has it, fails on the code: for a day whose
    meals have 300, 500 and 700 calories and whose total the reply states
    as 1600, the plan returned has the total 1600, not 1500. *)
Lemma stated_total_is_kept :
  fst (Sample.plan_of_reply (JDict Sample.plan_one_day)) = Return (Some Sample.one_day)
  /\ map (fun d => map (fun m => figure "calories" (nutrition_info m)) (meals d))
         (daily_plans Sample.one_day)
     = [[300; 500; 700]%Z]
  /\ map meal_calories (daily_plans Sample.one_day) = [1500%Z]
  /\ map total_calories (daily_plans Sample.one_day) = [1600%Z].
Proof.
  refine (conj _ _); [sample_plan_run Sample.plan_one_day|evaluate_each].
Qed.

Lemma daily_plans_as_supplied_witness :
  fst (Sample.plan_of_reply (JDict Sample.plan_week)) = Return (Some Sample.week)
  /\ exists raw data days,
       json_loads (Builtins := Sample.runtime) (sanitize raw) = Some (JDict data)
       /\ dict_get (lit "daily_plans") data = Some (JList days)
       /\ length (daily_plans Sample.week) = length days.
Proof.
  assert (Hrun : fst (Sample.plan_of_reply (JDict Sample.plan_week))
                 = Return (Some Sample.week))
    by (sample_plan_run Sample.plan_week).
  split; [exact Hrun|].
  destruct (daily_plans_as_supplied (py := Sample.runtime) (prompts := Sample.prompts)
              (Sample.replying (Sample.fenced (JDict Sample.plan_week)))
              Sample.dietitian Sample.sarah_profile Sample.new_world Hrun)
    as (raw & data & days & _ & Hd & Hdays & Hlen).
  exists raw, data, days.
  split; [exact Hd|split; [exact Hdays|exact Hlen]].
Defined.

(** C6, as the specification has it, fails on the code: a reply whose
    [daily_plans] has one day is accepted, and the plan returned has one
    day. *)
Lemma one_day_plan_is_accepted :
  fst (Sample.plan_of_reply (JDict Sample.plan_one_day)) = Return (Some Sample.one_day)
  /\ length (daily_plans Sample.one_day) = 1%nat.
Proof.
  refine (conj _ _); [sample_plan_run Sample.plan_one_day|evaluate_each].
Qed.

Lemma weekly_summary_as_supplied_witness :
  fst (Sample.plan_of_reply (JDict Sample.plan_week)) = Return (Some Sample.week)
  /\ exists raw data summary,
       json_loads (Builtins := Sample.runtime) (sanitize raw) = Some (JDict data)
       /\ dict_get (lit "weekly_summary") data = Some summary
       /\ dict_of_str (py := Sample.runtime) any_validator summary
          = Valid (weekly_summary Sample.week).
Proof.
  assert (Hrun : fst (Sample.plan_of_reply (JDict Sample.plan_week))
                 = Return (Some Sample.week))
    by (sample_plan_run Sample.plan_week).
  split; [exact Hrun|].
  destruct (weekly_summary_as_supplied (py := Sample.runtime) (prompts := Sample.prompts)
              (Sample.replying (Sample.fenced (JDict Sample.plan_week)))
              Sample.dietitian Sample.sarah_profile Sample.new_world Hrun)
    as (raw & data & summary & _ & Hd & Hs & Hv & _).
  exists raw, data, summary.
  split; [exact Hd|split; [exact Hs|exact Hv]].
Defined.

(** C2, as the specification has it, fails on the code: for seven days of
    1500, 1600, 1500, 1500, 1400, 1600 and 1500 calories and a weekly total
    the reply states as 10000, the plan returned has the weekly total
    10000, not 10600. *)
Lemma stated_weekly_total_is_kept :
  fst (Sample.plan_of_reply (JDict Sample.plan_week)) = Return (Some Sample.week)
  /\ map total_calories (daily_plans Sample.week)
     = [1500; 1600; 1500; 1500; 1400; 1600; 1500]%Z
  /\ daily_calories Sample.week = 10600%Z
  /\ dict_get (lit "total_calories") (weekly_summary Sample.week) = Some (JInt 10000).
Proof.
  refine (conj _ _); [sample_plan_run Sample.plan_week|evaluate_each].
Qed.

(** ** The page script *)

Section AppFacts.
Context {py : Builtins} {cfg : Config} {prompts : Prompts} {svc : Service}.

Lemma extract_user_profile_run (self : AIDietitian) (history : list Message) (w : World) :
  exists o w',
    extract_user_profile self history w = (Return o, w')
    /\ session w' = session w /\ page w' = page w
    /\ calls w' = calls w ++ [extraction_request self history].
Proof.
  pose proof (extract_attempt_effects svc self history w) as (Hrerun & Hs & _ & Hp & Hc).
  unfold extract_user_profile, try_except, bind, print, ret.
  destruct (extract_attempt self history w) as [[p|[e|]] w1]; simpl in *.
  - now exists (Some p), w1.
  - eexists None, _; split; [reflexivity|]; simpl; auto.
  - now contradiction Hrerun.
Qed.

Lemma create_diet_plan_run (self : AIDietitian) (profile : UserProfile) (w : World) :
  exists o w',
    create_diet_plan self profile w = (Return o, w')
    /\ session w' = session w /\ page w' = page w
    /\ calls w' = calls w ++ [plan_request self profile].
Proof.
  pose proof (plan_attempt_effects svc self profile w) as (Hrerun & Hs & _ & Hp & Hc).
  unfold create_diet_plan, try_except, bind, print, ret.
  destruct (plan_attempt self profile w) as [[p|[e|]] w1]; simpl in *.
  - now exists (Some p), w1.
  - eexists None, _; split; [reflexivity|]; simpl; auto.
  - now contradiction Hrerun.
Qed.

Lemma chat_run (self : AIDietitian) (msg : text) (history : list Message) (w : World) :
  exists reply w',
    chat self msg history w = (Return reply, w')
    /\ session w' = session w /\ page w' = page w.
Proof.
  unfold chat, try_except, ChatCompletion_create, ret.
  destruct (respond _ _); simpl; eauto 10.
Qed.

#[local] Opaque extract_user_profile create_diet_plan chat.

Ltac run_script :=
  unfold main, chat_section, extract_section, generate_section, complete_section,
    results_section, reset_session, initialize_session_state, AIDietitian_init,
    Config_validate, bind, st_get, st_update, try_except, notice, ret, raise, st_rerun,
    the_session;
  cbn.

Ltac run_step :=
  match goal with
  | H : session ?w = _ |- context [session ?w] => rewrite H; cbn
  | |- context [extract_user_profile ?a ?h ?w] =>
      let E := fresh "E" in
      let Hs := fresh "Hs" in
      destruct (extract_user_profile_run a h w) as (? & ? & E & Hs & _ & _);
      rewrite E in *; cbn in Hs |- *; rewrite ?Hs; cbn
  | |- context [create_diet_plan ?a ?p ?w] =>
      let E := fresh "E" in
      let Hs := fresh "Hs" in
      destruct (create_diet_plan_run a p w) as (? & ? & E & Hs & _ & _);
      rewrite E in *; cbn in Hs |- *; rewrite ?Hs; cbn
  | |- context [chat ?a ?m ?h ?w] =>
      let E := fresh "E" in
      let Hs := fresh "Hs" in
      destruct (chat_run a m h w) as (? & ? & E & Hs & _);
      rewrite E in *; cbn in Hs |- *; rewrite ?Hs; cbn
  | |- context [negb ?x] => is_var x; destruct x; cbn in *
  | |- context [truthy ?x] => is_var x; destruct x; cbn in *
  | |- context [nonempty ?x] => is_var x; destruct x; cbn in *
  | |- context [match ?x with _ => _ end] =>
      is_var x; destruct x; cbn in *
  | |- context [match OPENAI_API_KEY with _ => _ end] =>
      destruct OPENAI_API_KEY as [[|? ?]|]; cbn
  | |- context [match generate_diet_plan_pdf ?p with _ => _ end] =>
      destruct (generate_diet_plan_pdf p); cbn
  | |- context [?b && false] => rewrite (andb_false_r b); cbn
  | |- context [?b && true] => rewrite (andb_true_r b); cbn
  | |- context [if ?b then _ else _] => destruct b; cbn
  end.

Lemma no_profile_in_Idle_or_Chatting (s : session_state.t) :
  state_of s = Idle \/ state_of s = Chatting -> session_state.user_profile s = None.
Proof.
  unfold state_of.
  destruct (session_state.conversation_complete s); [intros [|]; discriminate|].
  destruct (session_state.diet_plan s); simpl; [intros [|]; discriminate|].
  destruct (session_state.user_profile s); simpl; [intros [|]; discriminate|reflexivity].
Qed.

(** C8.  The Generate Diet Plan button is disabled while the session has no
    profile, which is so in the states [Idle] and [Chatting]: a run of the
    script for a click on it ends normally without a call of the service,
    with the session as it was and nothing printed. *)
Theorem generation_needs_a_profile (w : World) :
  (state_of (the_session w) = Idle \/ state_of (the_session w) = Chatting)
  \/ session_state.user_profile (the_session w) = None ->
  fst (main (Click GenerateDietPlan) w) = Return tt
  /\ calls (snd (main (Click GenerateDietPlan) w)) = calls w
  /\ session (snd (main (Click GenerateDietPlan) w)) = Some (the_session w)
  /\ stdout (snd (main (Click GenerateDietPlan) w)) = stdout w.
Proof.
  intros H.
  assert (Hnone : session_state.user_profile (the_session w) = None)
    by (destruct H as [H|H]; [now apply no_profile_in_Idle_or_Chatting|exact H]).
  clear H; revert Hnone.
  destruct w as [[[ms up dp cc]|] cs out pg]; simpl; intros H.
  - subst up. destruct cc; destruct ms; cbn; repeat split.
  - cbn. repeat split.
Qed.

(** C9.  No run of the script ends in an exception.  A run that is not
    followed by a rerun, which is every run whose extraction or plan
    generation failed, leaves the stored profile and plan as they were, and
    the whole session when the run was not for a chat message.  A failed
    extraction and a failed plan generation are such runs. *)
Theorem failed_attempts_keep_the_session (w : World) :
  (forall ev e, fst (main ev w) <> Raise (Exception e))
  /\ (forall ev,
        fst (main ev w) = Return tt ->
        exists s',
          session (snd (main ev w)) = Some s'
          /\ session_state.user_profile s' = session_state.user_profile (the_session w)
          /\ session_state.diet_plan s' = session_state.diet_plan (the_session w)
          /\ (st_chat_input ev = None -> s' = the_session w))
  /\ (fst (extract_user_profile AIDietitian_attributes
             (session_state.messages (the_session w))
             (snd (initialize_session_state w))) = Return None ->
      fst (main (Click ExtractProfile) w) = Return tt)
  /\ (forall profile,
        session_state.user_profile (the_session w) = Some profile ->
        fst (create_diet_plan AIDietitian_attributes profile
               (snd (initialize_session_state w))) = Return None ->
        fst (main (Click GenerateDietPlan) w) = Return tt).
Proof.
  split; [|split; [|split]].
  - intros ev e. destruct w as [[[ms up dp cc]|] cs out pg]; destruct ev as [|[|c prompt]|[]];
      run_script; repeat run_step; discriminate.
  - intros ev. destruct w as [[[ms up dp cc]|] cs out pg]; destruct ev as [|[|c prompt]|[]];
      run_script; repeat run_step; intros H; try discriminate H;
      eexists; (split; [reflexivity|]); cbn; repeat split; discriminate.
  - destruct w as [[[ms up dp cc]|] cs out pg]; run_script; intros H;
      repeat run_step; try reflexivity; discriminate.
  - intros profile. destruct w as [[[ms up dp cc]|] cs out pg]; run_script; intros Hp H;
      try discriminate; subst; repeat run_step; try reflexivity; discriminate.
Qed.
End AppFacts.

Lemma generation_needs_a_profile_witness :
  state_of (the_session Sample.new_world) = Idle
  /\ state_of (the_session (Sample.world_with Sample.chatting_session)) = Chatting
  /\ fst (Sample.run (Sample.replying (Sample.fenced (JDict Sample.plan_week)))
            (Click GenerateDietPlan) Sample.new_world) = Return tt
  /\ calls (snd (Sample.run (Sample.replying (Sample.fenced (JDict Sample.plan_week)))
                   (Click GenerateDietPlan) Sample.new_world)) = []
  /\ fst (Sample.run (Sample.replying (Sample.fenced (JDict Sample.plan_week)))
            (Click GenerateDietPlan) (Sample.world_with Sample.chatting_session))
     = Return tt
  /\ calls (snd (Sample.run (Sample.replying (Sample.fenced (JDict Sample.plan_week)))
                   (Click GenerateDietPlan) (Sample.world_with Sample.chatting_session)))
     = [].
Proof.
  destruct (generation_needs_a_profile (py := Sample.runtime) (cfg := Sample.config)
              (prompts := Sample.prompts)
              (svc := Sample.replying (Sample.fenced (JDict Sample.plan_week)))
              Sample.new_world (or_introl (or_introl eq_refl)))
    as (H1 & H2 & _).
  destruct (generation_needs_a_profile (py := Sample.runtime) (cfg := Sample.config)
              (prompts := Sample.prompts)
              (svc := Sample.replying (Sample.fenced (JDict Sample.plan_week)))
              (Sample.world_with Sample.chatting_session) (or_introl (or_intror eq_refl)))
    as (H3 & H4 & _).
  split; [reflexivity|split; [reflexivity|]].
  split; [exact H1|split; [exact H2|split; [exact H3|exact H4]]].
Defined.

Lemma failed_attempts_keep_the_session_witness :
  fst (Sample.run (Sample.replying (lit "not json")) (Click ExtractProfile)
         (Sample.world_with Sample.stored_session)) = Return tt
  /\ session (snd (Sample.run (Sample.replying (lit "not json")) (Click ExtractProfile)
                     (Sample.world_with Sample.stored_session)))
     = Some Sample.stored_session
  /\ fst (Sample.run (Sample.replying (lit "not json")) (Click GenerateDietPlan)
            (Sample.world_with Sample.stored_session)) = Return tt
  /\ session (snd (Sample.run (Sample.replying (lit "not json")) (Click GenerateDietPlan)
                     (Sample.world_with Sample.stored_session)))
     = Some Sample.stored_session.
Proof.
  destruct (failed_attempts_keep_the_session (py := Sample.runtime) (cfg := Sample.config)
              (prompts := Sample.prompts) (svc := Sample.replying (lit "not json"))
              (Sample.world_with Sample.stored_session))
    as (_ & Hkeep & Hextract & Hplan).
  assert (He : fst (Sample.run (Sample.replying (lit "not json")) (Click ExtractProfile)
                      (Sample.world_with Sample.stored_session)) = Return tt).
  { apply Hextract; vm_compute; reflexivity. }
  assert (Hp : fst (Sample.run (Sample.replying (lit "not json")) (Click GenerateDietPlan)
                      (Sample.world_with Sample.stored_session)) = Return tt).
  { apply (Hplan Sample.sarah_profile); [reflexivity|vm_compute; reflexivity]. }
  destruct (Hkeep _ He) as (s1 & Hs1 & _ & _ & Heq1).
  destruct (Hkeep _ Hp) as (s2 & Hs2 & _ & _ & Heq2).
  rewrite (Heq1 eq_refl) in Hs1; rewrite (Heq2 eq_refl) in Hs2.
  split; [exact He|split; [exact Hs1|split; [exact Hp|exact Hs2]]].
Defined.

(** * Further properties of the code *)

(** ** The cleaning of a reply *)

Lemma lstrip_suffix (s : text) : exists pre, s = pre ++ lstrip s.
Proof.
  induction s as [|c s [pre IH]]; simpl.
  - now exists [].
  - destruct (isspace c).
    + exists (c :: pre); simpl; now rewrite <- IH.
    + now exists [].
Qed.

Lemma rstrip_prefix (s : text) : exists post, s = rstrip s ++ post.
Proof.
  unfold rstrip.
  destruct (lstrip_suffix (rev s)) as [pre H].
  exists (rev pre).
  rewrite <- rev_app_distr, <- H; symmetry; apply rev_involutive.
Qed.

Lemma strip_infix (s : text) : exists pre post, s = pre ++ strip s ++ post.
Proof.
  unfold strip.
  destruct (lstrip_suffix s) as [pre H1].
  destruct (rstrip_prefix (lstrip s)) as [post H2].
  exists pre, post; now rewrite <- H2.
Qed.

(** X1.  The cleaning only cuts at the two ends: the cleaned text is a
    contiguous part of the reply, so it is never longer than the reply and
    nothing inside it is rewritten. *)
Theorem sanitize_cuts_the_ends (raw : text) :
  (exists pre post, raw = pre ++ sanitize raw ++ post)
  /\ (length (sanitize raw) <= length raw)%nat.
Proof.
  assert (H : exists pre post, raw = pre ++ sanitize raw ++ post).
  { unfold sanitize.
    destruct (strip_infix raw) as (pre & post & H).
    generalize dependent (strip raw); intros c1 H.
    assert (H2 : exists pre2 c2,
               (if startswith fence_json c1 then slice_from 7 c1 else c1) = c2
               /\ c1 = pre2 ++ c2).
    { destruct (startswith fence_json c1).
      - exists (firstn 7 c1), (slice_from 7 c1); split; [reflexivity|].
        unfold slice_from; symmetry; apply firstn_skipn.
      - now exists [], c1. }
    destruct H2 as (pre2 & c2 & -> & H2).
    assert (H3 : exists post3 c3,
               (if endswith fence c2 then slice_to_neg 3 c2 else c2) = c3
               /\ c2 = c3 ++ post3).
    { destruct (endswith fence c2).
      - exists (skipn (length c2 - 3) c2), (slice_to_neg 3 c2); split; [reflexivity|].
        unfold slice_to_neg; symmetry; apply firstn_skipn.
      - exists [], c2; now rewrite app_nil_r. }
    destruct H3 as (post3 & c3 & -> & H3).
    exists (pre ++ pre2), (post3 ++ post).
    subst c2 c1 raw.
    now rewrite <- !app_assoc. }
  split; [exact H|].
  destruct H as (pre & post & H).
  rewrite H at 2; rewrite !length_app; lia.
Qed.

(** ** The three methods of the dietitian *)

Section PipelineMore.
Context {py : Builtins} {prompts : Prompts}.


(** X3.  Each of [chat], [extract_user_profile] and [create_diet_plan]
    calls the service exactly once, whatever the reply is: none retries,
    and none touches the session or the page. *)
Theorem one_call_per_method (svc : Service) (self : AIDietitian) (w : World) :
  (forall msg history,
     calls (snd (chat self msg history w)) = calls w ++ [chat_request self msg history]
     /\ session (snd (chat self msg history w)) = session w
     /\ page (snd (chat self msg history w)) = page w
     /\ stdout (snd (chat self msg history w)) = stdout w)
  /\ (forall history,
        calls (snd (extract_user_profile self history w))
        = calls w ++ [extraction_request self history]
        /\ session (snd (extract_user_profile self history w)) = session w
        /\ page (snd (extract_user_profile self history w)) = page w)
  /\ (forall profile,
        calls (snd (create_diet_plan self profile w)) = calls w ++ [plan_request self profile]
        /\ session (snd (create_diet_plan self profile w)) = session w
        /\ page (snd (create_diet_plan self profile w)) = page w).
Proof.
  split; [|split].
  - intros msg history.
    unfold chat, try_except, ChatCompletion_create, ret.
    destruct (respond _ _); cbn; repeat split.
  - intros history.
    destruct (extract_user_profile_effects svc self history w) as (H1 & H2 & H3); auto.
  - intros profile.
    destruct (create_diet_plan_effects svc self profile w) as (H1 & H2 & H3); auto.
Qed.

End PipelineMore.

(** ** The models *)

Section ModelMore.
Context {py : Builtins}.

Lemma required_missing_or_none {A} (key : string) (f : json -> Validated A)
    (data : dict json) (a : A) :
  required key f data = Valid a -> missing_or_none key data -> False.
Proof.
  intros H Hm; apply required_valid in H; destruct H as (v & Hv & Hn & _).
  destruct Hm as [Hm|Hm]; rewrite Hm in Hv; [discriminate|].
  injection Hv as <-; now apply Hn.
Qed.

Ltac no_required_field Hm H :=
  split_fields H;
  repeat match goal with
         | Hr : required _ _ _ = Valid _ |- _ =>
             first [solve [eapply required_missing_or_none; [exact Hr|exact Hm]]|clear Hr]
         end.

(** X4.  No model of models.py is built without one of its required
    fields, whether the key is missing or its value is [None]: every field
    but [target_weight_kg], [budget_constraint] and [notes] is required. *)
Theorem required_fields_are_required (key : string) (data : dict json) :
  missing_or_none key data ->
  (In key (required_of UserProfile_fields) -> forall p, UserProfile_init data <> Valid p)
  /\ (In key (required_of MealPlan_fields) -> forall m, MealPlan_init data <> Valid m)
  /\ (In key (required_of DailyPlan_fields) -> forall d, DailyPlan_init data <> Valid d)
  /\ (In key (required_of WeeklyDietPlan_fields) ->
      forall p, WeeklyDietPlan_init data <> Valid p).
Proof.
  intros Hm; repeat split; intros Hin x H; cbn in Hin.
  - unfold UserProfile_init in H.
    repeat (destruct Hin as [<-|Hin]; [now no_required_field Hm H|]); exact Hin.
  - unfold MealPlan_init in H.
    repeat (destruct Hin as [<-|Hin]; [now no_required_field Hm H|]); exact Hin.
  - unfold DailyPlan_init in H.
    repeat (destruct Hin as [<-|Hin]; [now no_required_field Hm H|]); exact Hin.
  - unfold WeeklyDietPlan_init in H.
    repeat (destruct Hin as [<-|Hin]; [now no_required_field Hm H|]); exact Hin.
Qed.

Lemma WeeklyDietPlan_init_profile (data : dict json) (p : WeeklyDietPlan) :
  WeeklyDietPlan_init data = Valid p ->
  required "user_profile" (model_validator UserProfile_init) data = Valid (user_profile p).
Proof.
  unfold WeeklyDietPlan_init; intros H; split_fields H; assumption.
Qed.

Lemma DailyPlan_init_meals (data : dict json) (d : DailyPlan) :
  DailyPlan_init data = Valid d ->
  required "meals" (list_of (model_validator MealPlan_init)) data = Valid (meals d).
Proof.
  unfold DailyPlan_init; intros H; split_fields H; assumption.
Qed.

Lemma MealPlan_init_meal_time (data : dict json) (m : MealPlan) :
  MealPlan_init data = Valid m ->
  required "meal_time" (enum_member_validator MealTime_members MealTime_value) data
  = Valid (meal_time m).
Proof.
  unfold MealPlan_init; intros H; split_fields H; assumption.
Qed.

End ModelMore.

Section PlanMore.
Context {py : Builtins} {prompts : Prompts}.

(** X6.  The profile inside a plan that [create_diet_plan] returns is the
    one the reply carries under [user_profile], validated as a profile; the
    profile the method was called with only goes into the request. *)
Theorem plan_profile_comes_from_the_reply (svc : Service) (self : AIDietitian)
    (profile : UserProfile) (w : World) (plan : WeeklyDietPlan) :
  fst (create_diet_plan self profile w) = Return (Some plan) ->
  exists raw data doc kw,
    respond (length (calls w)) (plan_request self profile)
      = ChatCompletion.Completion raw
    /\ json_loads (sanitize raw) = Some (JDict data)
    /\ dict_get (lit "user_profile") data = Some doc
    /\ as_keywords doc = Valid kw
    /\ UserProfile_init kw = Valid (user_profile plan).
Proof.
  intros H; apply create_diet_plan_returns in H; destruct H as (raw & data & Hr & Hj & Hv).
  apply WeeklyDietPlan_init_profile, required_valid in Hv.
  destruct Hv as (doc & Hdoc & _ & Hm).
  apply model_validator_valid in Hm; destruct Hm as (kw & Hkw & Hp).
  now exists raw, data, doc, kw.
Qed.

(** X7.  In a plan that [create_diet_plan] returns, every meal of every
    day has the [meal_time] the reply gives for it, which is one of
    breakfast, lunch, dinner and snacks; each day has as many meals as its
    [meals] list in the reply. *)
Theorem meal_times_as_supplied (svc : Service) (self : AIDietitian)
    (profile : UserProfile) (w : World) (plan : WeeklyDietPlan) :
  fst (create_diet_plan self profile w) = Return (Some plan) ->
  exists raw data days,
    respond (length (calls w)) (plan_request self profile)
      = ChatCompletion.Completion raw
    /\ json_loads (sanitize raw) = Some (JDict data)
    /\ dict_get (lit "daily_plans") data = Some (JList days)
    /\ Forall2 (fun doc d =>
                  exists kw items,
                    as_keywords doc = Valid kw
                    /\ dict_get (lit "meals") kw = Some (JList items)
                    /\ Forall2 (fun item m =>
                                  exists mkw,
                                    as_keywords item = Valid mkw
                                    /\ dict_get (lit "meal_time") mkw
                                       = Some (JStr (MealTime_value (meal_time m)))
                                    /\ In (MealTime_value (meal_time m))
                                          (map lit ["breakfast"; "lunch"; "dinner";
                                                    "snacks"]%string))
                               items (meals d))
               days (daily_plans plan).
Proof.
  intros H; apply create_diet_plan_returns in H; destruct H as (raw & data & Hr & Hj & Hv).
  apply plan_days_valid in Hv; destruct Hv as (days & Hdays & Hall).
  exists raw, data, days; repeat (split; [assumption|]).
  revert Hall; apply Forall2_impl; intros doc d (kw & Hkw & Hd).
  apply DailyPlan_init_meals, required_valid in Hd.
  destruct Hd as (v & Hv & _ & Hl).
  apply list_of_valid in Hl; destruct Hl as (items & -> & Hitems).
  exists kw, items; repeat (split; [assumption|]).
  revert Hitems; apply Forall2_impl; intros item m (_ & Hm).
  apply model_validator_valid in Hm; destruct Hm as (mkw & Hmkw & Hm).
  apply MealPlan_init_meal_time, required_valid in Hm.
  destruct Hm as (t & Ht & _ & He).
  apply enum_member_valid in He; destruct He as (-> & _).
  exists mkw; repeat (split; [assumption|]).
  destruct (meal_time m); cbn; tauto.
Qed.

End PlanMore.

Section ProfileMore.
Context {py : Builtins} {prompts : Prompts}.

Lemma UserProfile_init_texts (data : dict json) (p : UserProfile) :
  UserProfile_init data = Valid p ->
  required "name" str_validator data = Valid (name p)
  /\ required "gender" str_validator data = Valid (gender p)
  /\ required "cooking_skill" str_validator data = Valid (cooking_skill p)
  /\ optional "budget_constraint" str_validator data = Valid (budget_constraint p)
  /\ required "allergies" (list_of str_validator) data = Valid (allergies p)
  /\ required "preferences" (list_of str_validator) data = Valid (preferences p)
  /\ required "dislikes" (list_of str_validator) data = Valid (dislikes p)
  /\ required "cultural_preferences" (list_of str_validator) data
     = Valid (cultural_preferences p).
Proof.
  unfold UserProfile_init; intros H; split_fields H; simpl.
  repeat split; assumption.
Qed.

(** A [str] goes through [str_validator] as it is. *)
Lemma required_str (key : string) (data : dict json) (s r : text) :
  required key str_validator data = Valid r ->
  dict_get (lit key) data = Some (JStr s) -> r = s.
Proof.
  intros H Hs; apply required_valid in H; destruct H as (v & Hv & _ & H).
  rewrite Hs in Hv; injection Hv as <-; simpl in H; congruence.
Qed.

Lemma required_strs (key : string) (data : dict json) (l r : list text) :
  required key (list_of str_validator) data = Valid r ->
  dict_get (lit key) data = Some (JList (map JStr l)) -> r = l.
Proof.
  intros H Hl; apply required_valid in H; destruct H as (v & Hv & _ & H).
  rewrite Hl in Hv; injection Hv as <-.
  apply list_of_valid in H; destruct H as (items & Hi & H).
  injection Hi as <-; clear Hl.
  revert r H; induction l as [|s l IH]; intros r H; inversion H; subst; [reflexivity|].
  match goal with
  | Hx : _ /\ str_validator (JStr s) = Valid _ |- _ =>
      destruct Hx as (_ & Hx); simpl in Hx; injection Hx as <-
  end.
  f_equal; auto.
Qed.

(** X19.  The texts of a profile that [extract_user_profile] returns are
    those of the reply, unchanged: a name, gender, cooking skill or budget
    given as a string, and a list of allergies, preferences, dislikes or
    cultural preferences given as a list of strings, is in the profile as
    it is in the reply. *)
Theorem profile_texts_as_supplied (svc : Service) (self : AIDietitian)
    (history : list Message) (w : World) (p : UserProfile) :
  fst (extract_user_profile self history w) = Return (Some p) ->
  exists raw data,
    respond (length (calls w)) (extraction_request self history)
      = ChatCompletion.Completion raw
    /\ json_loads (sanitize raw) = Some (JDict data)
    /\ (forall s, dict_get (lit "name") data = Some (JStr s) -> name p = s)
    /\ (forall s, dict_get (lit "gender") data = Some (JStr s) -> gender p = s)
    /\ (forall s, dict_get (lit "cooking_skill") data = Some (JStr s) -> cooking_skill p = s)
    /\ (forall s, dict_get (lit "budget_constraint") data = Some (JStr s) ->
                  budget_constraint p = Some s)
    /\ (forall l, dict_get (lit "allergies") data = Some (JList (map JStr l)) ->
                  allergies p = l)
    /\ (forall l, dict_get (lit "preferences") data = Some (JList (map JStr l)) ->
                  preferences p = l)
    /\ (forall l, dict_get (lit "dislikes") data = Some (JList (map JStr l)) ->
                  dislikes p = l)
    /\ (forall l, dict_get (lit "cultural_preferences") data = Some (JList (map JStr l)) ->
                  cultural_preferences p = l).
Proof.
  intros H; apply extract_user_profile_returns in H.
  destruct H as (raw & data & Hr & Hj & Hv).
  apply UserProfile_init_texts in Hv.
  destruct Hv as (Hn & Hg & Hc & Hb & Ha & Hp & Hd & Hcp).
  exists raw, data; repeat (split; [assumption|]).
  repeat split; intros x Hx;
    try (eapply required_str; eassumption);
    try (eapply required_strs; eassumption).
  unfold optional in Hb; rewrite Hx in Hb; simpl in Hb; congruence.
Qed.

End ProfileMore.

(** ** The page script *)

Section ScriptFacts.
Context {py : Builtins} {cfg : Config} {prompts : Prompts} {svc : Service}.

Lemma chat_answer (self : AIDietitian) (msg : text) (history : list Message) (w : World) :
  exists w',
    chat self msg history w
    = (Return (answer (respond (length (calls w)) (chat_request self msg history))), w')
    /\ session w' = session w /\ page w' = page w
    /\ calls w' = calls w ++ [chat_request self msg history].
Proof.
  unfold chat, try_except, ChatCompletion_create, ret, answer.
  destruct (respond _ _); simpl; eauto 10.
Qed.

#[local] Opaque extract_user_profile create_diet_plan chat.

Ltac script :=
  unfold main, chat_section, extract_section, generate_section, complete_section,
    results_section, reset_session, initialize_session_state, AIDietitian_init,
    Config_validate, bind, st_get, st_update, try_except, notice, ret, raise, st_rerun,
    the_session;
  cbn.

(** One step of a run: a call of the service is replaced by its outcome
    and the world it leaves, a test by its two cases. *)
Ltac script_step :=
  match goal with
  | |- context [extract_user_profile ?a ?h ?w] =>
      let E := fresh "E" in
      let Hs := fresh "Hs" in
      let Hp := fresh "Hp" in
      let Hc := fresh "Hc" in
      destruct (extract_user_profile_run a h w) as (? & [? ? ? ?] & E & Hs & Hp & Hc);
      rewrite E in *; clear E; cbn in Hs, Hp, Hc; subst; cbn in *
  | |- context [create_diet_plan ?a ?p ?w] =>
      let E := fresh "E" in
      let Hs := fresh "Hs" in
      let Hp := fresh "Hp" in
      let Hc := fresh "Hc" in
      destruct (create_diet_plan_run a p w) as (? & [? ? ? ?] & E & Hs & Hp & Hc);
      rewrite E in *; clear E; cbn in Hs, Hp, Hc; subst; cbn in *
  | |- context [chat ?a ?m ?h ?w] =>
      let E := fresh "E" in
      let Hs := fresh "Hs" in
      let Hp := fresh "Hp" in
      let Hc := fresh "Hc" in
      destruct (chat_answer a m h w) as ([? ? ? ?] & E & Hs & Hp & Hc);
      rewrite E in *; clear E; cbn in Hs, Hp, Hc; subst; cbn in *
  | |- context [negb ?x] => is_var x; destruct x; cbn in *
  | |- context [truthy ?x] => is_var x; destruct x; cbn in *
  | |- context [nonempty ?x] => is_var x; destruct x; cbn in *
  | |- context [match ?x with _ => _ end] => is_var x; destruct x; cbn in *
  | |- context [match OPENAI_API_KEY with _ => _ end] =>
      destruct OPENAI_API_KEY as [[|? ?]|]; cbn in *
  | |- context [match generate_diet_plan_pdf ?p with _ => _ end] =>
      destruct (generate_diet_plan_pdf p); cbn in *
  | |- context [?b && false] => rewrite (andb_false_r b); cbn
  | |- context [?b && true] => rewrite (andb_true_r b); cbn
  | |- context [if ?b then _ else _] => destruct b eqn:?; cbn in *
  end.

(** X8.  How many calls of the service one run of the script makes: none
    unless the run is for a chat message or for a click on Extract Profile
    or Generate Diet Plan; one at most for such a click; two at most for a
    chat message, the second one being the extraction that follows the
    answer, which needs a session without a profile and at least four
    messages before this one and its answer. *)
Theorem calls_of_a_run (ev : Event) (w : World) :
  exists new,
    calls (snd (main ev w)) = calls w ++ new
    /\ match ev with
       | ChatInput _ =>
           (length new <= 2)%nat
           /\ (length new = 2%nat ->
               session_state.user_profile (the_session w) = None
               /\ (4 <= length (session_state.messages (the_session w)))%nat)
       | Click ExtractProfile | Click GenerateDietPlan => (length new <= 1)%nat
       | _ => new = []
       end.
Proof.
  destruct w as [[[ms up dp cc]|] cs out pg]; destruct ev as [|[|c prompt]|[]];
    script; repeat script_step;
    try (exists []; rewrite app_nil_r; cbn; repeat split; (lia || discriminate));
    try (eexists [_]; cbn; repeat split; (lia || discriminate)).
  all: rewrite <- ?app_assoc; cbn [app]; eexists [_; _]; cbn;
    (split; [reflexivity|]); (split; [lia|]); intros _.
  all: try discriminate.
  all: split; [reflexivity|];
    destruct ms as [|? [|? [|? [|? ?]]]]; cbn in *; (lia || discriminate).
Qed.

Lemma main_keeps_consistent (ev : Event) (w : World) :
  consistent (the_session w) = true ->
  consistent (the_session (snd (main ev w))) = true
  /\ (In MissingProfileOrPlan (page (snd (main ev w))) -> In MissingProfileOrPlan (page w)).
Proof.
  destruct w as [[[ms [up|] [dp|] [|]]|] cs out pg]; cbn; intros H; try discriminate H;
    destruct ev as [|[|c prompt]|[]];
    script; repeat script_step;
    (split; [reflexivity|]); rewrite ?in_app_iff; cbn; intuition discriminate.
Qed.

(** X9.  Whatever the interactions are, the session holds a plan only
    together with a profile and is complete only with a plan, from a session
    of which this is true, such as the one a browser session starts with; so
    the results page never takes its branch for a missing profile or plan. *)
Theorem session_stays_consistent (evs : list Event) (w : World) :
  consistent (the_session w) = true ->
  ~ In MissingProfileOrPlan (page w) ->
  consistent (the_session (runs evs w)) = true
  /\ ~ In MissingProfileOrPlan (page (runs evs w)).
Proof.
  revert w; induction evs as [|ev evs IH]; intros w Hc Hp; cbn [runs].
  - split; assumption.
  - destruct (main_keeps_consistent ev w Hc) as (Hc' & Hp').
    apply IH; [exact Hc'|]; intros Hin; apply Hp, Hp', Hin.
Qed.

(** X10.  Until the session is complete its transcript only grows: a run
    leaves the messages it found and adds some at the end, none when the
    run is not for a chat message. *)
Theorem transcript_only_grows (ev : Event) (w : World) :
  session_state.conversation_complete (the_session w) = false ->
  exists more,
    session_state.messages (the_session (snd (main ev w)))
    = session_state.messages (the_session w) ++ more
    /\ (st_chat_input ev = None -> more = [])
    /\ (length more <= 2)%nat.
Proof.
  destruct w as [[[ms up dp cc]|] cs out pg]; cbn; intros H; subst;
    destruct ev as [|[|c prompt]|[]];
    script; repeat script_step;
    try (exists []; rewrite ?app_nil_r; cbn; repeat split; (lia || discriminate));
    try (eexists [_]; cbn; repeat split; (lia || discriminate));
    rewrite <- ?app_assoc; cbn [app]; eexists [_; _]; cbn; repeat split;
      (lia || discriminate).
Qed.

(** X11.  A chat message with the key configured: the session gets the
    message and then the answer, which is the reply of the service or the
    apology with the reason of its failure; the request of that call is the
    first call of the run, and it carries the message twice at its end, once
    from the transcript the page has already put it in and once from
    [chat] itself. *)
Theorem chat_exchange (c : codepoint) (rest : text) (w : World) (k : codepoint) (ks : text) :
  OPENAI_API_KEY = Some (k :: ks) ->
  session_state.conversation_complete (the_session w) = false ->
  let prompt := c :: rest in
  let history := session_state.messages (the_session w) ++ [message "user" prompt] in
  let request := chat_request AIDietitian_attributes prompt history in
  let reply := answer (respond (length (calls w)) request) in
  session_state.messages (the_session (snd (main (ChatInput prompt) w)))
  = history ++ [message "assistant" reply]
  /\ (exists later, calls (snd (main (ChatInput prompt) w)) = calls w ++ request :: later)
  /\ (exists before,
        ChatCompletion.messages request
        = before ++ [message "user" prompt; message "user" prompt]).
Proof.
  intros Hk Hc prompt history request reply; subst prompt history request reply.
  split; [|split].
  - revert Hc; destruct w as [[[ms up dp cc]|] cs out pg]; cbn; intros Hc; subst;
      script; rewrite Hk; cbn; repeat script_step; reflexivity.
  - revert Hc; destruct w as [[[ms up dp cc]|] cs out pg]; cbn; intros Hc; subst;
      script; rewrite Hk; cbn; repeat script_step;
      rewrite <- ?app_assoc; cbn [app]; eexists; reflexivity.
  - cbn [chat_request ChatCompletion.messages]; unfold chat_messages.
    rewrite !app_assoc; rewrite <- app_assoc; cbn [app].
    match goal with |- exists b, ?x :: ?l ++ _ = _ => exists (x :: l) end; reflexivity.
Qed.

(** X12.  A complete session is only read, but for its reset button: no
    run calls the service or prints; a click on the reset button the page
    shows (Start New Session with a profile and a plan stored, Start Over
    otherwise) puts a new empty session in its place and reruns the script;
    every other run ends normally and leaves the session as it is. *)
Theorem complete_session_is_final (ev : Event) (w : World) :
  session_state.conversation_complete (the_session w) = true ->
  calls (snd (main ev w)) = calls w
  /\ stdout (snd (main ev w)) = stdout w
  /\ (ev = Click (reset_button (the_session w)) ->
      session (snd (main ev w)) = Some fresh
      /\ fst (main ev w) = Raise RerunException)
  /\ (ev <> Click (reset_button (the_session w)) ->
      session (snd (main ev w)) = Some (the_session w)
      /\ fst (main ev w) = Return tt).
Proof.
  destruct w as [[[ms [up|] [dp|] cc]|] cs out pg]; cbn; intros H; try discriminate H; subst;
    destruct ev as [|[|c prompt]|[]];
    script; repeat script_step;
    (split; [reflexivity|split; [reflexivity|split]]);
    let E := fresh in
    intros E; try discriminate E; try (now contradiction E); split; reflexivity.
Qed.

(** X13.  Without an API key, missing or empty, a run of the script stops
    at the validation of the configuration: [main] is not reached, so the
    service is not called, nothing is printed and the session is left as it
    was, not even initialised; the page shows the configuration error. *)
Theorem no_key_no_call (ev : Event) (w : World) :
  OPENAI_API_KEY = None \/ OPENAI_API_KEY = Some [] ->
  fst (app_script ev w) = Return tt
  /\ session (snd (app_script ev w)) = session w
  /\ calls (snd (app_script ev w)) = calls w
  /\ stdout (snd (app_script ev w)) = stdout w
  /\ page (snd (app_script ev w))
     = page w ++ [ErrorNotice (lit "Configuration Error: ")
                    (lit "OPENAI_API_KEY environment variable is required")].
Proof.
  unfold app_script, try_except, bind, Config_validate, raise, notice.
  intros [Hk|Hk]; rewrite Hk; cbn; repeat split.
Qed.

(** X20.  With an API key the block around [main] changes nothing: the
    validation passes and no exception leaves [main], so a run of the
    script is a run of [main], with its result and its world. *)
Theorem script_with_a_key_is_main (ev : Event) (w : World) (k : codepoint) (ks : text) :
  OPENAI_API_KEY = Some (k :: ks) ->
  app_script ev w = main ev w.
Proof.
  intros Hk; unfold app_script, try_except, bind at 1, Config_validate.
  rewrite Hk; cbn [ret].
  assert (H : forall e, fst (main ev w) <> Raise (Exception e)).
  { intros e.
    destruct w as [[[ms up dp cc]|] cs out pg]; destruct ev as [|[|c prompt]|[]];
      script; rewrite ?Hk; cbn; repeat script_step; rewrite ?Hk; cbn;
      repeat script_step; discriminate. }
  destruct (main ev w) as [[a|[e|]] w']; cbn in *; try reflexivity.
  now contradiction (H e).
Qed.

(** X14.  A click on Extract Profile after which the extraction returns a
    profile: the profile is stored, in place of the one the session had if
    it had one, the page reports it and the script is rerun; the messages,
    the plan and the completion flag stay as they were. *)
Theorem extracted_profile_is_stored (w : World) (k : codepoint) (ks : text)
    (p : UserProfile) :
  OPENAI_API_KEY = Some (k :: ks) ->
  session_state.conversation_complete (the_session w) = false ->
  fst (extract_user_profile AIDietitian_attributes
         (session_state.messages (the_session w))
         (snd (initialize_session_state w))) = Return (Some p) ->
  session_state.messages (the_session w) <> [] ->
  fst (main (Click ExtractProfile) w) = Raise RerunException
  /\ session (snd (main (Click ExtractProfile) w))
     = Some (set_user_profile (Some p) (the_session w))
  /\ page (snd (main (Click ExtractProfile) w)) = page w ++ [ProfileExtracted]
  /\ calls (snd (main (Click ExtractProfile) w))
     = calls w ++ [extraction_request AIDietitian_attributes
                     (session_state.messages (the_session w))].
Proof.
  intros Hk.
  destruct w as [[[[|m ms] up dp cc]|] cs out pg]; cbn; intros Hc H Hm; subst;
    try (now contradiction Hm); clear Hm; revert H;
    script; rewrite Hk; cbn; repeat script_step; intros H; try discriminate H;
    injection H as <-; repeat split.
Qed.

(** X15.  A click on Generate Diet Plan after which the creation returns a
    plan: the plan is stored, the page reports it and the script is rerun,
    so that the session is in the state [PlanReady]. *)
Theorem generated_plan_is_stored (w : World) (k : codepoint) (ks : text)
    (profile : UserProfile) (plan : WeeklyDietPlan) :
  OPENAI_API_KEY = Some (k :: ks) ->
  session_state.conversation_complete (the_session w) = false ->
  session_state.user_profile (the_session w) = Some profile ->
  fst (create_diet_plan AIDietitian_attributes profile
         (snd (initialize_session_state w))) = Return (Some plan) ->
  fst (main (Click GenerateDietPlan) w) = Raise RerunException
  /\ session (snd (main (Click GenerateDietPlan) w))
     = Some (set_diet_plan (Some plan) (the_session w))
  /\ state_of (the_session (snd (main (Click GenerateDietPlan) w))) = PlanReady
  /\ page (snd (main (Click GenerateDietPlan) w)) = page w ++ [DietPlanGenerated]
  /\ calls (snd (main (Click GenerateDietPlan) w))
     = calls w ++ [plan_request AIDietitian_attributes profile].
Proof.
  intros Hk.
  destruct w as [[[ms up dp cc]|] cs out pg]; cbn; intros Hc Hp H; subst;
    try discriminate Hp; revert H;
    script; rewrite Hk; cbn; repeat script_step; intros H; try discriminate H;
    injection H as <-; repeat split.
Qed.

(** X16.  The Complete Session button works only on a session with a
    plan: then the click sets the completion flag and reruns the script,
    which leaves the session [Finalized]; on a session without a plan the
    click changes nothing.  Neither calls the service. *)
Theorem completion_needs_a_plan (w : World) :
  session_state.conversation_complete (the_session w) = false ->
  calls (snd (main (Click CompleteSession) w)) = calls w
  /\ (session_state.diet_plan (the_session w) = None ->
      fst (main (Click CompleteSession) w) = Return tt
      /\ session (snd (main (Click CompleteSession) w)) = Some (the_session w))
  /\ (truthy (session_state.diet_plan (the_session w)) = true ->
      fst (main (Click CompleteSession) w) = Raise RerunException
      /\ session (snd (main (Click CompleteSession) w))
         = Some (set_conversation_complete true (the_session w))
      /\ state_of (the_session (snd (main (Click CompleteSession) w))) = Finalized).
Proof.
  destruct w as [[[ms up [dp|] cc]|] cs out pg]; cbn; intros Hc; subst;
    script; (split; [reflexivity|split]);
    intros Hp; try discriminate Hp; repeat split.
Qed.

(** X18.  The automatic extraction of app.py 230-237.  A chat message on a
    session without a profile that already has four messages or more makes
    two calls: the chat request, and the extraction request over the
    transcript with this message and its answer.  The run ends in a rerun
    with a profile stored, or normally with none. *)
Theorem automatic_extraction (c : codepoint) (rest : text) (w : World) (k : codepoint)
    (ks : text) :
  OPENAI_API_KEY = Some (k :: ks) ->
  session_state.conversation_complete (the_session w) = false ->
  session_state.user_profile (the_session w) = None ->
  (4 <= length (session_state.messages (the_session w)))%nat ->
  let prompt := c :: rest in
  let history := session_state.messages (the_session w) ++ [message "user" prompt] in
  let request := chat_request AIDietitian_attributes prompt history in
  let reply := answer (respond (length (calls w)) request) in
  calls (snd (main (ChatInput prompt) w))
  = calls w ++ [request;
                extraction_request AIDietitian_attributes
                  (history ++ [message "assistant" reply])]
  /\ ((fst (main (ChatInput prompt) w) = Raise RerunException
       /\ truthy (session_state.user_profile (the_session (snd (main (ChatInput prompt) w))))
          = true
       /\ page (snd (main (ChatInput prompt) w)) = page w ++ [ProfileExtracted])
      \/ (fst (main (ChatInput prompt) w) = Return tt
          /\ session_state.user_profile (the_session (snd (main (ChatInput prompt) w)))
             = None
          /\ page (snd (main (ChatInput prompt) w)) = page w)).
Proof.
  intros Hk Hc Hp Hlen prompt history request reply; subst prompt history request reply.
  revert Hc Hp Hlen.
  destruct w as [[[ms up dp cc]|] cs out pg]; cbn; intros Hc Hp Hlen; subst;
    [|exfalso; lia].
  destruct ms as [|m1 [|m2 [|m3 [|m4 ms]]]]; cbn in Hlen; try (exfalso; lia).
  script; rewrite Hk; cbn; repeat script_step;
    try (exfalso;
         match goal with
         | H : _ = false |- _ =>
             rewrite !length_app in H; cbn [length] in H;
             rewrite <- Nat.add_assoc, Nat.add_comm in H; cbn in H; discriminate H
         end);
    rewrite <- ?app_assoc; cbn [app]; (split; [reflexivity|]);
    first [left; repeat split; reflexivity|right; repeat split; reflexivity].
Qed.

End ScriptFacts.

(** ** The key check of the setup script *)

Section SetupFacts.
Context {cfg : Config}.

(** X17.  The check of the setup script is stricter than the validation
    the application runs: a key that passes the check passes
    [Config.validate], but the key of the [.env] template passes the
    validation and fails the check.  The check never raises and always
    prints its first line. *)
Theorem setup_check_is_stricter (w : World) :
  (forall dotenv,
     fst (check_openai_key dotenv w) = Return true ->
     fst (Config_validate w) = Return true)
  /\ (OPENAI_API_KEY = Some placeholder ->
      fst (Config_validate w) = Return true
      /\ forall dotenv, fst (check_openai_key dotenv w) = Return false)
  /\ (forall dotenv,
        exists b rest,
          fst (check_openai_key dotenv w) = Return b
          /\ stdout (snd (check_openai_key dotenv w))
             = stdout w ++ ([10%N; 128273%N] ++ lit " Checking OpenAI API key...") :: rest
          /\ (dotenv = false -> b = false)).
Proof.
  unfold check_openai_key, Config_validate, bind, print, ret, raise.
  split; [|split].
  - intros [|]; destruct OPENAI_API_KEY as [[|c k]|]; cbn -[lit placeholder text_eqb];
      try destruct (text_eqb (c :: k) placeholder); cbn -[lit];
      try discriminate; reflexivity.
  - intros ->; split; [reflexivity|].
    intros [|]; cbn -[lit text_eqb]; [|reflexivity].
    rewrite text_eqb_refl; reflexivity.
  - intros [|]; destruct OPENAI_API_KEY as [[|c k]|]; cbn -[lit placeholder text_eqb];
      try destruct (text_eqb (c :: k) placeholder); cbn -[lit];
      rewrite <- ?app_assoc; cbn -[lit];
      eexists _, _; (split; [reflexivity|]); (split; [reflexivity|]);
      intros H; (reflexivity || discriminate H).
Qed.

End SetupFacts.

(** ** The sample documents and sessions through these properties *)

Lemma required_fields_are_required_witness :
  missing_or_none "allergies" Sample.sarah_without_allergies
  /\ missing_or_none "name" [(lit "name", JNull)]
  /\ (forall p, UserProfile_init (py := Sample.runtime) Sample.sarah_without_allergies
                <> Valid p)
  /\ (forall p, UserProfile_init (py := Sample.runtime) [(lit "name", JNull)] <> Valid p).
Proof.
  assert (H1 : missing_or_none "allergies" Sample.sarah_without_allergies)
    by (left; vm_compute; reflexivity).
  assert (H2 : missing_or_none "name" [(lit "name", JNull)])
    by (right; vm_compute; reflexivity).
  split; [exact H1|split; [exact H2|split]].
  - destruct (required_fields_are_required (py := Sample.runtime) H1) as (H & _).
    apply H; cbn; tauto.
  - destruct (required_fields_are_required (py := Sample.runtime) H2) as (H & _).
    apply H; cbn; tauto.
Defined.

Lemma plan_profile_comes_from_the_reply_witness :
  fst (Sample.plan_of_reply (JDict Sample.plan_one_day)) = Return (Some Sample.one_day)
  /\ exists raw data doc kw,
       json_loads (Builtins := Sample.runtime) (sanitize raw) = Some (JDict data)
       /\ dict_get (lit "user_profile") data = Some doc
       /\ as_keywords (py := Sample.runtime) doc = Valid kw
       /\ UserProfile_init (py := Sample.runtime) kw = Valid (user_profile Sample.one_day).
Proof.
  assert (Hrun : fst (Sample.plan_of_reply (JDict Sample.plan_one_day))
                 = Return (Some Sample.one_day))
    by (sample_plan_run Sample.plan_one_day).
  split; [exact Hrun|].
  destruct (plan_profile_comes_from_the_reply (py := Sample.runtime)
              (prompts := Sample.prompts)
              (Sample.replying (Sample.fenced (JDict Sample.plan_one_day)))
              Sample.dietitian Sample.sarah_profile Sample.new_world Hrun)
    as (raw & data & doc & kw & _ & Hd & Hdoc & Hkw & Hp).
  exists raw, data, doc, kw.
  split; [exact Hd|split; [exact Hdoc|split; [exact Hkw|exact Hp]]].
Defined.

Lemma meal_times_as_supplied_witness :
  fst (Sample.plan_of_reply (JDict Sample.plan_one_day)) = Return (Some Sample.one_day)
  /\ exists raw data days,
       json_loads (Builtins := Sample.runtime) (sanitize raw) = Some (JDict data)
       /\ dict_get (lit "daily_plans") data = Some (JList days)
       /\ Forall2 (fun doc d =>
                     exists kw items,
                       as_keywords (py := Sample.runtime) doc = Valid kw
                       /\ dict_get (lit "meals") kw = Some (JList items)
                       /\ length items = length (meals d))
                  days (daily_plans Sample.one_day).
Proof.
  assert (Hrun : fst (Sample.plan_of_reply (JDict Sample.plan_one_day))
                 = Return (Some Sample.one_day))
    by (sample_plan_run Sample.plan_one_day).
  split; [exact Hrun|].
  destruct (meal_times_as_supplied (py := Sample.runtime) (prompts := Sample.prompts)
              (Sample.replying (Sample.fenced (JDict Sample.plan_one_day)))
              Sample.dietitian Sample.sarah_profile Sample.new_world Hrun)
    as (raw & data & days & _ & Hd & Hdays & Hall).
  exists raw, data, days.
  split; [exact Hd|split; [exact Hdays|]].
  revert Hall; apply Forall2_impl; intros doc d (kw & items & Hkw & Hitems & Hm).
  exists kw, items.
  split; [exact Hkw|split; [exact Hitems|]].
  eapply Forall2_length; exact Hm.
Defined.

Lemma session_stays_consistent_witness :
  consistent (the_session Sample.new_world) = true
  /\ consistent
       (the_session
          (runs (py := Sample.runtime) (cfg := Sample.config) (prompts := Sample.prompts)
             (svc := Sample.replying (Sample.fenced (JDict Sample.sarah)))
             [ChatInput (lit "Hi"); Click ExtractProfile; Click GenerateDietPlan;
              Click CompleteSession; Click StartOver]
             Sample.new_world)) = true.
Proof.
  split; [reflexivity|].
  apply (session_stays_consistent (py := Sample.runtime) (cfg := Sample.config)
           (prompts := Sample.prompts)
           (svc := Sample.replying (Sample.fenced (JDict Sample.sarah)))).
  - reflexivity.
  - intros H; exact H.
Defined.

Lemma transcript_only_grows_witness :
  session_state.conversation_complete
    (the_session (Sample.world_with Sample.chatting_session)) = false
  /\ exists more,
       session_state.messages
         (the_session (snd (Sample.run (Sample.replying (lit "Hello")) (ChatInput (lit "Hi"))
                              (Sample.world_with Sample.chatting_session))))
       = Sample.conversation ++ more.
Proof.
  split; [reflexivity|].
  destruct (transcript_only_grows (py := Sample.runtime) (cfg := Sample.config)
              (prompts := Sample.prompts) (svc := Sample.replying (lit "Hello"))
              (ChatInput (lit "Hi")) (Sample.world_with Sample.chatting_session) eq_refl)
    as (more & H & _).
  exists more; exact H.
Defined.

Lemma chat_exchange_witness :
  OPENAI_API_KEY (Config := Sample.config) = Some (lit "sk-sample")
  /\ session_state.messages
       (the_session (snd (Sample.run (Sample.replying (lit "Hello")) (ChatInput (lit "Hi"))
                            (Sample.world_with Sample.chatting_session))))
     = Sample.conversation ++ [message "user" (lit "Hi"); message "assistant" (lit "Hello")].
Proof.
  split; [reflexivity|].
  destruct (chat_exchange (py := Sample.runtime) (cfg := Sample.config)
              (prompts := Sample.prompts) (svc := Sample.replying (lit "Hello"))
              (k := 115%N) (ks := lit "k-sample")
              72%N (lit "i") (Sample.world_with Sample.chatting_session)
              eq_refl eq_refl)
    as (H & _).
  exact H.
Defined.

Lemma complete_session_is_final_witness :
  session_state.conversation_complete
    (the_session (Sample.world_with (set_conversation_complete true Sample.stored_session)))
  = true
  /\ calls (snd (Sample.run (Sample.replying (lit "Hello")) (Click StartNewSession)
                   (Sample.world_with
                      (set_conversation_complete true Sample.stored_session))))
     = []
  /\ session (snd (Sample.run (Sample.replying (lit "Hello")) (Click StartNewSession)
                     (Sample.world_with
                        (set_conversation_complete true Sample.stored_session))))
     = Some fresh
  /\ session (snd (Sample.run (Sample.replying (lit "Hello")) (Click StartOver)
                     (Sample.world_with
                        (set_conversation_complete true Sample.stored_session))))
     = Some (set_conversation_complete true Sample.stored_session).
Proof.
  split; [reflexivity|].
  destruct (complete_session_is_final (py := Sample.runtime) (cfg := Sample.config)
              (prompts := Sample.prompts) (svc := Sample.replying (lit "Hello"))
              (Click StartNewSession)
              (Sample.world_with (set_conversation_complete true Sample.stored_session))
              eq_refl)
    as (H1 & _ & H2 & _).
  destruct (complete_session_is_final (py := Sample.runtime) (cfg := Sample.config)
              (prompts := Sample.prompts) (svc := Sample.replying (lit "Hello"))
              (Click StartOver)
              (Sample.world_with (set_conversation_complete true Sample.stored_session))
              eq_refl)
    as (_ & _ & _ & H3).
  split; [exact H1|split].
  - destruct (H2 eq_refl) as (H & _); exact H.
  - assert (Hne : Click StartOver
                  <> Click (reset_button
                              (the_session
                                 (Sample.world_with
                                    (set_conversation_complete true
                                       Sample.stored_session)))))
      by discriminate.
    destruct (H3 Hne) as (H & _); exact H.
Defined.

Lemma no_key_no_call_witness :
  OPENAI_API_KEY (Config := unconfigured) = None
  /\ (forall ev,
        calls (snd (app_script (py := Sample.runtime) (cfg := unconfigured)
                      (prompts := Sample.prompts) (svc := Sample.replying (lit "Hello"))
                      ev Sample.new_world))
        = []
        /\ session (snd (app_script (py := Sample.runtime) (cfg := unconfigured)
                           (prompts := Sample.prompts)
                           (svc := Sample.replying (lit "Hello"))
                           ev Sample.new_world))
           = None).
Proof.
  split; [reflexivity|].
  intros ev.
  destruct (no_key_no_call (py := Sample.runtime) (cfg := unconfigured)
              (prompts := Sample.prompts) (svc := Sample.replying (lit "Hello"))
              ev Sample.new_world (or_introl eq_refl))
    as (_ & Hs & Hc & _).
  split; [exact Hc|exact Hs].
Defined.

Lemma script_with_a_key_is_main_witness :
  OPENAI_API_KEY (Config := Sample.config) = Some (lit "sk-sample")
  /\ (forall ev w,
        app_script (py := Sample.runtime) (cfg := Sample.config)
          (prompts := Sample.prompts) (svc := Sample.replying (lit "Hello")) ev w
        = Sample.run (Sample.replying (lit "Hello")) ev w).
Proof.
  split; [reflexivity|].
  intros ev w.
  exact (script_with_a_key_is_main (py := Sample.runtime) (cfg := Sample.config)
           (prompts := Sample.prompts) (svc := Sample.replying (lit "Hello"))
           (k := 115%N) (ks := lit "k-sample") ev w eq_refl).
Defined.

Lemma extracted_profile_is_stored_witness :
  fst (Sample.run (Sample.replying (Sample.fenced (JDict Sample.sarah)))
         (Click ExtractProfile) (Sample.world_with Sample.chatting_session))
  = Raise RerunException
  /\ session (snd (Sample.run (Sample.replying (Sample.fenced (JDict Sample.sarah)))
                     (Click ExtractProfile) (Sample.world_with Sample.chatting_session)))
     = Some (set_user_profile (Some Sample.sarah_profile) Sample.chatting_session).
Proof.
  assert (Hrun : fst (extract_user_profile (py := Sample.runtime) (prompts := Sample.prompts)
                        (svc := Sample.replying (Sample.fenced (JDict Sample.sarah)))
                        (AIDietitian_attributes (cfg := Sample.config) (prompts := Sample.prompts))
                        (session_state.messages
                           (the_session (Sample.world_with Sample.chatting_session)))
                        (snd (initialize_session_state
                                (Sample.world_with Sample.chatting_session))))
                 = Return (Some Sample.sarah_profile))
    by (vm_compute; reflexivity).
  assert (Hm : session_state.messages
                 (the_session (Sample.world_with Sample.chatting_session)) <> [])
    by discriminate.
  destruct (extracted_profile_is_stored (py := Sample.runtime) (cfg := Sample.config)
              (prompts := Sample.prompts)
              (svc := Sample.replying (Sample.fenced (JDict Sample.sarah)))
              (k := 115%N) (ks := lit "k-sample") (p := Sample.sarah_profile)
              (Sample.world_with Sample.chatting_session) eq_refl eq_refl Hrun Hm)
    as (H1 & H2 & _).
  split; [exact H1|exact H2].
Defined.

Lemma generated_plan_is_stored_witness :
  fst (Sample.run (Sample.replying (Sample.fenced (JDict Sample.plan_one_day)))
         (Click GenerateDietPlan) (Sample.world_with Sample.stored_session))
  = Raise RerunException
  /\ state_of
       (the_session
          (snd (Sample.run (Sample.replying (Sample.fenced (JDict Sample.plan_one_day)))
                  (Click GenerateDietPlan) (Sample.world_with Sample.stored_session))))
     = PlanReady.
Proof.
  assert (Hrun : fst (create_diet_plan (py := Sample.runtime) (prompts := Sample.prompts)
                        (svc := Sample.replying (Sample.fenced (JDict Sample.plan_one_day)))
                        (AIDietitian_attributes (cfg := Sample.config) (prompts := Sample.prompts))
                        Sample.sarah_profile
                        (snd (initialize_session_state
                                (Sample.world_with Sample.stored_session))))
                 = Return (Some Sample.one_day))
    by (sample_plan_run Sample.plan_one_day).
  destruct (generated_plan_is_stored (py := Sample.runtime) (cfg := Sample.config)
              (prompts := Sample.prompts)
              (svc := Sample.replying (Sample.fenced (JDict Sample.plan_one_day)))
              (k := 115%N) (ks := lit "k-sample")
              (profile := Sample.sarah_profile) (plan := Sample.one_day)
              (Sample.world_with Sample.stored_session) eq_refl eq_refl eq_refl Hrun)
    as (H1 & _ & H2 & _).
  split; [exact H1|exact H2].
Defined.

Lemma completion_needs_a_plan_witness :
  session_state.conversation_complete
    (the_session (Sample.world_with Sample.stored_session)) = false
  /\ state_of
       (the_session
          (snd (Sample.run (Sample.replying (lit "Hello")) (Click CompleteSession)
                  (Sample.world_with Sample.stored_session))))
     = Finalized.
Proof.
  split; [reflexivity|].
  destruct (completion_needs_a_plan (py := Sample.runtime) (cfg := Sample.config)
              (prompts := Sample.prompts) (svc := Sample.replying (lit "Hello"))
              (Sample.world_with Sample.stored_session) eq_refl)
    as (_ & _ & H).
  destruct (H eq_refl) as (_ & _ & H3); exact H3.
Defined.

Lemma automatic_extraction_witness :
  (4 <= length (session_state.messages
                  (the_session (Sample.world_with
                                  (append_message (message "assistant" (lit "Go on."))
                                     Sample.chatting_session)))))%nat
  /\ length (calls (snd (Sample.run (Sample.replying (lit "not json"))
                           (ChatInput (lit "Hi"))
                           (Sample.world_with
                              (append_message (message "assistant" (lit "Go on."))
                                 Sample.chatting_session)))))
     = 2%nat.
Proof.
  assert (Hlen : (4 <= length (session_state.messages
                                 (the_session
                                    (Sample.world_with
                                       (append_message (message "assistant" (lit "Go on."))
                                          Sample.chatting_session)))))%nat)
    by (cbn; lia).
  split; [exact Hlen|].
  destruct (automatic_extraction (py := Sample.runtime) (cfg := Sample.config)
              (prompts := Sample.prompts) (svc := Sample.replying (lit "not json"))
              (k := 115%N) (ks := lit "k-sample")
              72%N (lit "i")
              (Sample.world_with
                 (append_message (message "assistant" (lit "Go on."))
                    Sample.chatting_session))
              eq_refl eq_refl eq_refl Hlen)
    as (H & _).
  exact (f_equal (@length _) H).
Defined.

Lemma profile_texts_as_supplied_witness :
  fst (Sample.extraction_of (JDict Sample.sarah)) = Return (Some Sample.sarah_profile)
  /\ exists raw data,
       json_loads (Builtins := Sample.runtime) (sanitize raw) = Some (JDict data)
       /\ (forall s, dict_get (lit "name") data = Some (JStr s) ->
                     name Sample.sarah_profile = s)
       /\ (forall l, dict_get (lit "preferences") data = Some (JList (map JStr l)) ->
                     preferences Sample.sarah_profile = l).
Proof.
  assert (Hrun : fst (Sample.extraction_of (JDict Sample.sarah))
                 = Return (Some Sample.sarah_profile))
    by (vm_compute; reflexivity).
  split; [exact Hrun|].
  destruct (profile_texts_as_supplied (py := Sample.runtime) (prompts := Sample.prompts)
              (Sample.replying (Sample.fenced (JDict Sample.sarah)))
              Sample.dietitian Sample.conversation Sample.new_world Hrun)
    as (raw & data & _ & Hd & Hn & _ & _ & _ & _ & Hp & _).
  exists raw, data.
  split; [exact Hd|split; [exact Hn|exact Hp]].
Defined.
